(** * Diagnostic clinic dashboard: the data-transformation core of
    [dashboard.py], embedded as Rocq functions.

    Conventions of the embedding.
    - A Python [str] is a [string]; the procedure names, statuses and
      employee names of the spreadsheet are ASCII text, and no text cell
      of the cancellation sheet is blank (a blank one would be NaN, which
      [groupby] drops, ['count'] skips and [sorted] cannot compare with
      a string).
    - A pandas [Timestamp] is the number of nanoseconds since the epoch
      ([Z]); [NaT] is [None].
    - A float64 is idealised as an exact rational ([Q]), so it is
      finite and arithmetic on it does not round; a pandas NaN is
      [None].
    - Code that can raise returns in the error monad [M].
    - The script's module-level names are the fields of [Globals]; the
      Streamlit containers ([with tab1:] ...) are the fields of [Page]. *)

From Stdlib Require Import List String Ascii Bool Arith ZArith QArith Qround Lia
  Lqa Permutation Sorted.
Import ListNotations.

Open Scope string_scope.

(* ================================================================== *)
(** ** Python strings *)

Module PyStr.

(** [c.upper()] for an ASCII character. *)
Definition upper_ascii (c : ascii) : ascii :=
  let n := nat_of_ascii c in
  if (97 <=? n)%nat && (n <=? 122)%nat then ascii_of_nat (n - 32) else c.

(** [c.lower()] for an ASCII character. *)
Definition lower_ascii (c : ascii) : ascii :=
  let n := nat_of_ascii c in
  if (65 <=? n)%nat && (n <=? 90)%nat then ascii_of_nat (n + 32) else c.

(** [s.upper()] *)
Fixpoint upper (s : string) : string :=
  match s with
  | EmptyString => EmptyString
  | String c s' => String (upper_ascii c) (upper s')
  end.

(** [s.lower()] *)
Fixpoint lower (s : string) : string :=
  match s with
  | EmptyString => EmptyString
  | String c s' => String (lower_ascii c) (lower s')
  end.

(** [needle in hay]: [needle] occurs in [hay] as a contiguous run. *)
Fixpoint contains (needle hay : string) : bool :=
  prefix needle hay ||
  match hay with
  | EmptyString => false
  | String _ hay' => contains needle hay'
  end.

(** [any(p(x) for x in xs)] *)
Definition any {A} (p : A -> bool) (xs : list A) : bool := existsb p xs.

End PyStr.

(* ================================================================== *)
(** ** Procedure classifier ([categorize_procedure], lines 8-31) *)

(** The literal dict [categories]; a Python dict iterates in insertion
    order, so it is an association list in source order. *)
Definition categories : list (string * list string) :=
  [ ("OPEN MRI", ["OPEN MRI"; "OPEN MAGNETIC"]);
    ("US", ["US"; "ULTRA"; "SONOGRAM"]);
    ("CT", ["CT"; "CAT SCAN"; "COMPUTED TOMOGRAPHY"]);
    ("SLEEP STUDY", ["SLEEP"]);
    ("MRI", ["MRI"; "MAGNETIC"]);
    ("PET/CT", ["PET/CT"; "PET CT"]);
    ("XRAY", ["XRAY"; "X-RAY"; "X RAY"; "RAD"]);
    ("MAMMOGRAM", ["MAMMO"; "BREAST"]);
    ("NCS", ["NCS"; "NERVE"; "CONDUCTION"]);
    ("BONE DENSITY", ["BONE"; "DEXA"; "DENSITOMETRY"]);
    ("NUCLEAR MEDICINE", ["NUC MED"; "NUCLEAR"; "THYROID UPTAKE"]);
    ("CARDIAC PET", ["CARDIAC PET"; "HEART PET"]) ].

(** [any(keyword in procedure_type for keyword in keywords)] *)
Definition keyword_in (keywords : list string) (procedure_type : string)
    : bool :=
  PyStr.any (fun keyword => PyStr.contains keyword procedure_type) keywords.

(** The loop [for category, keywords in categories.items()] with its
    early [return], followed by [return 'OTHER']. *)
Fixpoint first_match (cats : list (string * list string))
    (procedure_type : string) : string :=
  match cats with
  | [] => "OTHER"
  | (category, keywords) :: rest =>
      if keyword_in keywords procedure_type
      then category
      else first_match rest procedure_type
  end.

Definition categorize_procedure (procedure_type : string) : string :=
  let procedure_type := PyStr.upper procedure_type in
  first_match categories procedure_type.

(* ================================================================== *)
(** ** Exceptions and the error monad *)

Inductive exn :=
| AttributeError (msg : string)
| StopException                 (* raised by [st.stop()] *)
| DateInputValueError           (* the ValueError of [st.date_input] *)
| Exception (msg : string).     (* any other exception, with [str(e)] *)

(** [str(e)]; the text of Streamlit's own exceptions is not modelled. *)
Definition exn_str (e : exn) : string :=
  match e with
  | AttributeError msg => msg
  | StopException => ""
  | DateInputValueError => ""
  | Exception msg => msg
  end.

Definition M (A : Type) : Type := (exn + A)%type.
Definition ret {A} (a : A) : M A := inr a.
Definition raise {A} (e : exn) : M A := inl e.
Definition bind {A B} (c : M A) (k : A -> M B) : M B :=
  match c with
  | inl e => inl e
  | inr a => k a
  end.
Definition fmap {A B} (f : A -> B) (c : M A) : M B :=
  bind c (fun a => ret (f a)).

Notation "x <- c ;; k" := (bind c (fun x => k))
  (at level 61, c at next level, right associativity).

(* ================================================================== *)
(** ** Numbers: float64 idealised as [Q] *)

Definition Qltb (x y : Q) : bool := negb (Qle_bool y x).
Definition Qof_nat (n : nat) : Q := inject_Z (Z.of_nat n).

(** [numpy.rint]: nearest integer, ties to the even one. *)
Definition rint (x : Q) : Z :=
  let f := Qfloor x in
  match Qcompare (x - inject_Z f) (1 # 2) with
  | Lt => f
  | Gt => (f + 1)%Z
  | Eq => if Z.even f then f else (f + 1)%Z
  end.

(** [Series.round(1)] on one value: [rint(x * 10) / 10]. *)
Definition round1 (x : Q) : Q := inject_Z (rint (x * 10)) / 10.

Definition Qsum (xs : list Q) : Q := fold_right Qplus 0 xs.

(** Insertion of [x] into a list kept ascending for [le]; equal keys keep
    their order of arrival. *)
Fixpoint insert_by {A} (le : A -> A -> bool) (x : A) (l : list A) : list A :=
  match l with
  | [] => [x]
  | y :: l' => if le y x then y :: insert_by le x l' else x :: l
  end.

(** A stable sort for the order [le]. pandas' [sort_values] leaves the
    order of ties to the sorting kernel; here ties keep their order. *)
Definition sort_by {A} (le : A -> A -> bool) (l : list A) : list A :=
  fold_left (fun acc x => insert_by le x acc) l [].

(** [Series.median()] of the non-NaN values: NaN ([None]) when there is
    none, the middle value, or the mean of the two middle values. *)
Definition median (xs : list Q) : option Q :=
  let s := sort_by Qle_bool xs in
  let n := List.length s in
  match n with
  | O => None
  | _ =>
      if Nat.odd n then Some (nth (n / 2) s 0)
      else Some ((nth (n / 2 - 1) s 0 + nth (n / 2) s 0) / 2)
  end.

(** [Series.mean()] and [Series.max()] of non-NaN values. *)
Definition mean (xs : list Q) : option Q :=
  match xs with
  | [] => None
  | _ => Some (Qsum xs / Qof_nat (List.length xs))
  end.

Definition Qmax (x y : Q) : Q := if Qle_bool x y then y else x.

Definition maximum (xs : list Q) : option Q :=
  match xs with
  | [] => None
  | x :: xs' => Some (fold_left Qmax xs' x)
  end.

(** [x > m] where [m] may be NaN: a comparison with NaN is [False]. *)
Definition gt_nan (x : Q) (m : option Q) : bool :=
  match m with
  | None => false
  | Some m => Qltb m x
  end.

(* ================================================================== *)
(** ** Data model *)

(** A spreadsheet cell as [read_excel] delivers it. *)
Inductive cell :=
| Blank
| Num (q : Q)
| Str (s : string)
| Stamp (ns : Z).

Definition isna (c : cell) : bool :=
  match c with
  | Blank => true
  | _ => false
  end.

(** One row of sheet 'Dashboard Cancel No Show' after the selection of
    the seven columns (line 47). The text columns hold strings. *)
Record RawRow := {
  raw_Appt_Date : cell;
  raw_Type : string;
  raw_Status : string;
  raw_Created_By : string;
  raw_Created_Date_Time : cell;
  raw_Canceled_By : string;
  raw_Canceled_Date_Time : cell
}.

(** One row of [data]: the renamed columns (line 48), the three dates
    parsed (lines 50-51) and the derived category (line 53). *)
Record Row := {
  Appointment_Date : option Z;
  Type_ : string;
  Status : string;
  Created_By : string;
  Created_Date : option Z;
  Canceled_By : string;
  Canceled_Date : option Z;
  Procedure_Category : string
}.

(** The data region of sheet 'Patients Seen Report': [width] columns
    under the header row; a row shorter than [width] is blank beyond its
    end. *)
Record Grid := { width : nat; rows : list (list cell) }.

Inductive message :=
| StError (msg : string)
| StWarning (msg : string)
| StInfo (msg : string).

(** What the file system and [read_excel] give [load_data]:
    [None] when [os.path.exists(file_path)] is false, else the outcome of
    reading each sheet. [cancel_sheet] is the outcome of lines 44-47
    (reading the sheet and selecting the seven columns, either of which
    may raise); [seen_sheet] that of line 57. *)
Record Workbook := {
  cancel_sheet : M (list RawRow);
  seen_sheet : M Grid
}.

(* ================================================================== *)
(** ** Loader ([load_data], lines 35-80) *)

Record Source := {
  file_path : string;              (* DASHBOARD_DATA_PATH or its default *)
  workbook : option Workbook       (* [None]: the path does not exist *)
}.

Section Loader.

(** pandas' cell parsers, which are not part of this repository:
    [pd.to_datetime(.., errors='coerce')] on one cell ([None] is NaT) and
    [pd.to_numeric(.., errors='coerce')] on one cell ([None] is NaN). *)
Variable to_datetime : cell -> option Z.
Variable to_numeric : cell -> option Q.

(** Lines 48-53 on one row. *)
Definition normalize (r : RawRow) : Row :=
  {| Appointment_Date := to_datetime (raw_Appt_Date r);
     Type_ := raw_Type r;
     Status := raw_Status r;
     Created_By := raw_Created_By r;
     Created_Date := to_datetime (raw_Created_Date_Time r);
     Canceled_By := raw_Canceled_By r;
     Canceled_Date := to_datetime (raw_Canceled_Date_Time r);
     Procedure_Category := categorize_procedure (raw_Type r) |}.

Definition column (j : nat) (rs : list (list cell)) : list cell :=
  map (fun r => nth j r Blank) rs.

(** [.fillna(0)] after [to_numeric]. *)
Definition numeric_or_zero (c : cell) : Q :=
  match to_numeric c with
  | Some q => q
  | None => 0
  end.

(** Lines 60-71: drop the rows, then the columns, that are entirely
    empty; all remaining columns but the first are numeric; sum them. *)
Definition total_of_grid (g : Grid) : Q :=
  let cols := seq 0 (width g) in
  let rs :=
    filter (fun r => negb (forallb (fun j => isna (nth j r Blank)) cols))
           (rows g) in
  let kept := filter (fun j => negb (forallb isna (column j rs))) cols in
  let numeric_cols := tl kept in
  Qsum (map (fun j => Qsum (map numeric_or_zero (column j rs)))
            numeric_cols).

(** The result [(df, total_procedures)] with the messages shown. *)
Definition load_data (src : Source) : (list Row * Q) * list message :=
  match workbook src with
  | None =>
      (([], 0),
       [StError ("Data file not found at " ++ file_path src ++
                 ". Please ensure the data file exists.")])
  | Some wb =>
      match cancel_sheet wb with
      | inl e => (([], 0), [StError ("Error loading data: " ++ exn_str e)])
      | inr raw =>
          let df := map normalize raw in
          match fmap total_of_grid (seen_sheet wb) with
          | inl e =>
              ((df, 0),
               [StWarning ("Could not process Patients Seen Report: "
                           ++ exn_str e)])
          | inr total_procedures => ((df, total_procedures), [])
          end
      end
  end.

End Loader.

(* ================================================================== *)
(** ** Filters and aggregations *)

Definition ns_per_day : Z := 86400000000000.

(** [Timestamp.date()] as a day number. *)
Definition date_of (t : Z) : Z := (t / ns_per_day)%Z.

(** The [mask] of lines 114, 293 and 464 on one row; a comparison with
    NaT is [False]. *)
Definition mask (start_date end_date : Z) (r : Row) : bool :=
  match Appointment_Date r with
  | None => false
  | Some t => (start_date <=? date_of t)%Z && (date_of t <=? end_date)%Z
  end.

Definition is_cancelled (r : Row) : bool := Status r =? "Cancelled".

(** [(x == 'Cancelled').sum()] *)
Definition count_cancelled (rs : list Row) : nat :=
  List.length (filter is_cancelled rs).

(** The keys of a [groupby] or of [sorted(.. .unique())]: each distinct
    value once, ascending. *)
Definition groupby_keys (ks : list string) : list string :=
  sort_by String.leb (nodup string_dec ks).

Definition group {A} (key : A -> string) (k : string) (rs : list A) : list A :=
  filter (fun r => key r =? k) rs.

(** *** Tab 1: cancellations by category (lines 118-130) *)

Record ProcMetric := {
  pm_Procedure_Category : string;
  pm_Cancelled : nat;
  pm_Cancellation_Rate : Q
}.

(** Lines 118-122: the columns ['Procedure Category', 'Cancelled']. *)
Definition cancelled_by_category (filtered_data : list Row)
    : list (string * nat) :=
  map (fun k => (k, count_cancelled (group Procedure_Category k filtered_data)))
      (groupby_keys (map Procedure_Category filtered_data)).

(** Lines 125-128: [(cancelled / total * 100 if total > 0 else 0).round(1)].
    In the [else] branch the receiver of [.round] is the integer literal. *)
Definition cancellation_rate_column (cancelled : list nat)
    (total_procedures : Q) : M (list Q) :=
  if Qltb 0 total_procedures
  then ret (map (fun c => round1 (Qof_nat c / total_procedures * 100))
                cancelled)
  else raise (AttributeError "'int' object has no attribute 'round'").

Definition by_rate_desc (a b : ProcMetric) : bool :=
  Qle_bool (pm_Cancellation_Rate b) (pm_Cancellation_Rate a).

(** [proc_metrics] after line 130. *)
Definition proc_metrics (filtered_data : list Row) (total_procedures : Q)
    : M (list ProcMetric) :=
  let counts := cancelled_by_category filtered_data in
  rates <- cancellation_rate_column (map snd counts) total_procedures ;;
  ret (sort_by by_rate_desc
         (map (fun '((k, c), r) =>
                 {| pm_Procedure_Category := k;
                    pm_Cancelled := c;
                    pm_Cancellation_Rate := r |})
              (combine counts rates))).

(** *** Tab 1: the OTHER category (lines 203-264) *)

Record OtherType := {
  ot_Procedure_Type : string;
  ot_Total : nat;
  ot_Cancelled : nat;
  ot_Cancellation_Rate : Q
}.

(** Lines 207-213. *)
Definition other_types (other_procedures : list Row) : list OtherType :=
  sort_by (fun a b => (ot_Total b <=? ot_Total a)%nat)
    (map (fun k =>
            let g := group Type_ k other_procedures in
            {| ot_Procedure_Type := k;
               ot_Total := List.length g;
               ot_Cancelled := count_cancelled g;
               ot_Cancellation_Rate :=
                 round1 (Qof_nat (count_cancelled g)
                         / Qof_nat (List.length g) * 100) |})
         (groupby_keys (map Type_ other_procedures))).

(** The boolean row selector of lines 262-263. *)
Definition high_cancel_mask (other_types : list OtherType) (r : OtherType)
    : bool :=
  (5 <=? ot_Total r)%nat &&
  gt_nan (ot_Cancellation_Rate r)
         (median (map ot_Cancellation_Rate other_types)).

(** Lines 261-264. *)
Definition high_cancel (other_types : list OtherType) : list OtherType :=
  sort_by (fun a b => Qle_bool (ot_Cancellation_Rate b)
                               (ot_Cancellation_Rate a))
    (filter (high_cancel_mask other_types) other_types).

(** *** Tab 2: one employee (lines 356-389) *)

Record CategoryRate := {
  cr_Procedure_Category : string;
  cr_Total : nat;
  cr_Cancelled : nat;
  cr_Cancellation_Rate : Q
}.

(** Lines 385-389. *)
Definition cancel_by_type (employee_data : list Row) : list CategoryRate :=
  map (fun k =>
         let g := group Procedure_Category k employee_data in
         {| cr_Procedure_Category := k;
            cr_Total := List.length g;
            cr_Cancelled := count_cancelled g;
            cr_Cancellation_Rate :=
              round1 (Qof_nat (count_cancelled g)
                      / Qof_nat (List.length g) * 100) |})
      (groupby_keys (map Procedure_Category employee_data)).

(** Line 298, sorted as on line 337. *)
Definition employee_total (filtered_data : list Row) : list (string * nat) :=
  sort_by (fun a b => (snd a <=? snd b)%nat)
    (map (fun k => (k, List.length (group Created_By k filtered_data)))
         (groupby_keys (map Created_By filtered_data))).

(** *** Tab 2: the heatmap tables (lines 297-308) *)

(** Line 297: [groupby(['Created By', 'Procedure Category']).size()],
    one row per pair that occurs, ordered by employee, then category. *)
Definition employee_procedures (filtered_data : list Row)
    : list ((string * string) * nat) :=
  flat_map
    (fun e =>
       let rs := group Created_By e filtered_data in
       map (fun c => ((e, c), List.length (group Procedure_Category c rs)))
           (groupby_keys (map Procedure_Category rs)))
    (groupby_keys (map Created_By filtered_data)).

(** A pivoted frame: row labels, column labels, one list of values per
    row label. *)
Record Pivot := {
  pv_index : list string;
  pv_columns : list string;
  pv_values : list (list Q)
}.

(** The 'Count' of the row of [employee_procedures] for a pair, NaN
    ([None]) when the pair has no row. *)
Definition pivot_lookup (ep : list ((string * string) * nat))
    (e c : string) : option nat :=
  match find (fun x => (fst (fst x) =? e) && (snd (fst x) =? c)) ep with
  | Some x => Some (snd x)
  | None => None
  end.

(** Lines 301-305: [pivot(index='Created By', columns='Procedure
    Category', values='Count').fillna(0)]. *)
Definition heatmap_data (filtered_data : list Row) : Pivot :=
  let ep := employee_procedures filtered_data in
  let index := groupby_keys (map (fun x => fst (fst x)) ep) in
  let columns := groupby_keys (map (fun x => snd (fst x)) ep) in
  {| pv_index := index;
     pv_columns := columns;
     pv_values :=
       map (fun e =>
              map (fun c => match pivot_lookup ep e c with
                            | Some n => Qof_nat n
                            | None => 0
                            end)
                  columns)
           index |}.

(** Line 308: [heatmap_data.div(heatmap_data.sum(axis=1), axis=0) * 100]. *)
Definition heatmap_pct (heatmap_data : Pivot) : Pivot :=
  {| pv_index := pv_index heatmap_data;
     pv_columns := pv_columns heatmap_data;
     pv_values :=
       map (fun row => map (fun v => v / Qsum row * 100) row)
           (pv_values heatmap_data) |}.

(** *** Tab 3: time to cancellation (lines 410-446) *)

(** Lines 413-416: [(canceled - created).dt.total_seconds() / 3600];
    a subtraction with NaT is NaT and its seconds are NaN. *)
Definition time_to_cancellation (r : Row) : option Q :=
  match Canceled_Date r, Created_Date r with
  | Some canceled, Some created =>
      Some (inject_Z (canceled - created) / 1000000000 / 3600)
  | _, _ => None
  end.

Inductive edge :=
| Fin (q : Q)
| PosInf.     (* float('inf') *)

Definition edge_lt (e : edge) (x : Q) : bool :=
  match e with
  | Fin q => Qltb q x
  | PosInf => false
  end.

Definition le_edge (x : Q) (e : edge) : bool :=
  match e with
  | Fin q => Qle_bool x q
  | PosInf => true
  end.

(** [pd.cut(x, bins, labels)] on one value, with the defaults
    [right=True, include_lowest=False]: the label of the interval
    [(lo, hi]] holding [x], NaN ([None]) when there is none. *)
Fixpoint cut (x : Q) (bins : list edge) (labels : list string)
    : option string :=
  match bins, labels with
  | lo :: ((hi :: _) as bins'), l :: labels' =>
      if edge_lt lo x && le_edge x hi then Some l else cut x bins' labels'
  | _, _ => None
  end.

(** Line 422. *)
Definition bins : list edge :=
  [Fin 0; Fin (1667 # 10000); Fin 1; Fin 5; Fin 24; PosInf].

(** Line 423. *)
Definition labels : list string :=
  ["<10 mins"; "10m-1h"; "1-5h"; "5-24h"; ">24h"].

(** The column 'Time Category' for one elapsed time. *)
Definition time_category (hours : Q) : option string := cut hours bins labels.

(** The elapsed hours that survive [dropna] (line 419), in row order. *)
Fixpoint dropna {A} (xs : list (option A)) : list A :=
  match xs with
  | [] => []
  | Some x :: xs' => x :: dropna xs'
  | None :: xs' => dropna xs'
  end.

(** *** Tab 4: cancellations by employee (lines 468-473) *)

Record CancelMetric := {
  cm_Employee : string;
  cm_Cancellations : nat;
  cm_Unique_Procedures : nat
}.

Definition cancel_metrics (filtered_data : list Row) : list CancelMetric :=
  let cancelled := filter is_cancelled filtered_data in
  sort_by (fun a b => (cm_Cancellations a <=? cm_Cancellations b)%nat)
    (map (fun k =>
            let g := group Canceled_By k cancelled in
            {| cm_Employee := k;
               cm_Cancellations := List.length g;
               cm_Unique_Procedures :=
                 List.length (nodup string_dec (map Procedure_Category g)) |})
         (groupby_keys (map Canceled_By cancelled))).

(* ================================================================== *)
(** ** The script: module-level names and the page *)

(** What a Streamlit call puts on the page; charts and tables are
    recorded by the data handed to them. *)
Inductive widget :=
| Note (m : message)
| Metric (label : string) (value : option Q)
| ProcMetricsView (t : list ProcMetric)
| OtherTypesView (t : list OtherType)
| CategoryRatesView (t : list CategoryRate)
| CountsView (t : list (string * nat))
| CancelMetricsView (t : list CancelMetric)
| RowsView (t : list Row)
| PieView (names : list (option string)).

(** The containers of the page. *)
Record Page := {
  main_c : list widget;
  tab1_c : list widget;
  tab2_c : list widget;
  tab3_c : list widget;
  tab4_c : list widget
}.

(** The module-level names the tabs share. A name not bound yet holds an
    empty default; the script reads no name before binding it. *)
Record Globals := {
  data : list Row;
  total_procedures : Q;
  start_date : Z;
  end_date : Z;
  filtered_data : list Row;
  selected_employee : option string;
  page : Page
}.

(** What the user gives the widgets: a date range per filtered tab
    ([st.date_input]) and the entry picked from the options offered
    ([st.selectbox]; [None] when no option is offered). *)
Record Inputs := {
  tab1_dates : Z * Z;
  tab2_dates : Z * Z;
  tab2_employee : list string -> option string;
  tab4_dates : Z * Z;
  tab4_employee : list string -> option string
}.

(** [filtered_data['Created By'] == selected_employee] and the like. *)
Definition is_selected (key : Row -> string) (sel : option string) (r : Row)
    : bool :=
  match sel with
  | Some e => key r =? e
  | None => false
  end.

(** Lines 107-111, 286-290, 457-461: the default range of the date
    picker is [[min_date, max_date]]; the minimum and maximum of a column
    of NaT only are NaT, which [st.date_input] refuses with a
    ValueError. *)
Definition date_bounds (d : list Row) : M unit :=
  match dropna (map Appointment_Date d) with
  | [] => raise DateInputValueError
  | _ => ret tt
  end.

Definition with_tab1 (p : Page) (ws : list widget) : Page :=
  {| main_c := main_c p; tab1_c := tab1_c p ++ ws; tab2_c := tab2_c p;
     tab3_c := tab3_c p; tab4_c := tab4_c p |}.
Definition with_tab2 (p : Page) (ws : list widget) : Page :=
  {| main_c := main_c p; tab1_c := tab1_c p; tab2_c := tab2_c p ++ ws;
     tab3_c := tab3_c p; tab4_c := tab4_c p |}.
Definition with_tab3 (p : Page) (ws : list widget) : Page :=
  {| main_c := main_c p; tab1_c := tab1_c p; tab2_c := tab2_c p;
     tab3_c := tab3_c p ++ ws; tab4_c := tab4_c p |}.
Definition with_tab4 (p : Page) (ws : list widget) : Page :=
  {| main_c := main_c p; tab1_c := tab1_c p; tab2_c := tab2_c p;
     tab3_c := tab3_c p; tab4_c := tab4_c p ++ ws |}.

(** [df.head(n)] and [df.tail(n)] *)
Definition head {A} (n : nat) (l : list A) : list A := firstn n l.
Definition tail {A} (n : nat) (l : list A) : list A :=
  skipn (List.length l - n) l.

(** [Series.value_counts()]: occurrences per value, most frequent first. *)
Definition value_counts (xs : list string) : list (string * nat) :=
  sort_by (fun a b => (snd b <=? snd a)%nat)
    (map (fun k => (k, count_occ string_dec xs k)) (nodup string_dec xs)).

(** Lines 201-279: what the OTHER analysis shows. *)
Definition other_category_view (filtered_data : list Row) : list widget :=
  let other_procedures := group Procedure_Category "OTHER" filtered_data in
  match other_procedures with
  | [] =>
      [Note (StInfo
         "No procedures categorized as OTHER in the selected date range.")]
  | _ =>
      let other_types := other_types other_procedures in
      [ OtherTypesView (head 10 other_types);
        OtherTypesView (head 20 other_types);
        Metric "Total unique procedure types in OTHER category"
               (Some (Qof_nat (List.length other_types)));
        match high_cancel other_types with
        | [] =>
            Note (StInfo
              "No procedures meeting the high cancellation rate criteria found.")
        | hc => OtherTypesView hc
        end ]
  end.

(** Lines 103-279. The weekly trend chart (lines 186-199) binds no name
    another tab reads and is left out. *)
Definition tab1 (inp : Inputs) (g : Globals) : M Globals :=
  _ <- date_bounds (data g) ;;
  let '(start_date, end_date) := tab1_dates inp in
  let filtered_data := filter (mask start_date end_date) (data g) in
  proc_metrics <- proc_metrics filtered_data (total_procedures g) ;;
  ret {| data := data g;
         total_procedures := total_procedures g;
         start_date := start_date;
         end_date := end_date;
         filtered_data := filtered_data;
         selected_employee := selected_employee g;
         page :=
           with_tab1 (page g)
             ([ Metric "Total Procedures Performed"
                       (Some (total_procedures g));
                Metric "Total Cancellations"
                       (Some (Qof_nat
                          (list_sum (map pm_Cancelled proc_metrics))));
                ProcMetricsView
                  (filter (fun m => negb (pm_Procedure_Category m =? "OTHER"))
                          proc_metrics);
                ProcMetricsView proc_metrics ]
              ++ other_category_view filtered_data) |}.

(** Lines 282-403. The heatmap tables (lines 297-308) bind no name
    another tab reads and are left out. With no blank 'Created By' cell,
    [sorted] on line 349 compares strings only. Line 359 binds the
    module-level name [total_procedures]. *)
Definition tab2 (inp : Inputs) (g : Globals) : M Globals :=
  _ <- date_bounds (data g) ;;
  let '(start_date, end_date) := tab2_dates inp in
  let filtered_data := filter (mask start_date end_date) (data g) in
  let employees := groupby_keys (map Created_By filtered_data) in
  let selected_employee := tab2_employee inp employees in
  let employee_data :=
    filter (is_selected Created_By selected_employee) filtered_data in
  let total_procedures := List.length employee_data in
  let cancelled_procedures := count_cancelled employee_data in
  let cancellation_rate :=
    if (0 <? total_procedures)%nat
    then Qof_nat cancelled_procedures / Qof_nat total_procedures * 100
    else 0 in
  ret {| data := data g;
         total_procedures := Qof_nat total_procedures;
         start_date := start_date;
         end_date := end_date;
         filtered_data := filtered_data;
         selected_employee := selected_employee;
         page :=
           with_tab2 (page g)
             [ CountsView (tail 10 (employee_total filtered_data));
               Metric "Total Procedures" (Some (Qof_nat total_procedures));
               Metric "Cancelled Procedures"
                      (Some (Qof_nat cancelled_procedures));
               Metric "Cancellation Rate" (Some cancellation_rate);
               CountsView (value_counts (map Procedure_Category employee_data));
               CategoryRatesView (cancel_by_type employee_data);
               RowsView employee_data ] |}.

(** Lines 410-450: what the timing tab shows for the frame [data]. *)
Definition timing_view (data : list Row) : list widget :=
  let cancelled_data := filter is_cancelled data in
  match cancelled_data with
  | [] => [Note (StWarning "No cancelled appointments found.")]
  | _ =>
      let hours := dropna (map time_to_cancellation cancelled_data) in
      match hours with
      | [] =>
          [Note (StWarning "No valid time differences found in cancellations.")]
      | _ =>
          [ PieView (map time_category hours);
            Metric "Average Hours" (mean hours);
            Metric "Median Hours" (median hours);
            Metric "Max Hours" (maximum hours) ]
      end
  end.

(** Lines 406-450. *)
Definition tab3 (g : Globals) : M Globals :=
  ret {| data := data g;
         total_procedures := total_procedures g;
         start_date := start_date g;
         end_date := end_date g;
         filtered_data := filtered_data g;
         selected_employee := selected_employee g;
         page := with_tab3 (page g) (timing_view (data g)) |}.

(** Lines 453-551. *)
Definition tab4 (inp : Inputs) (g : Globals) : M Globals :=
  _ <- date_bounds (data g) ;;
  let '(start_date, end_date) := tab4_dates inp in
  let filtered_data := filter (mask start_date end_date) (data g) in
  let cancel_metrics := cancel_metrics filtered_data in
  let counts := map (fun m => Qof_nat (cm_Cancellations m)) cancel_metrics in
  let employees := groupby_keys (map cm_Employee cancel_metrics) in
  let selected_employee := tab4_employee inp employees in
  let employee_cancellations :=
    filter (fun r => is_cancelled r &&
                     is_selected Canceled_By selected_employee r)
           filtered_data in
  ret {| data := data g;
         total_procedures := total_procedures g;
         start_date := start_date;
         end_date := end_date;
         filtered_data := filtered_data;
         selected_employee := selected_employee;
         page :=
           with_tab4 (page g)
             ([ CancelMetricsView (tail 15 cancel_metrics);
                Metric "Total Cancellations" (Some (Qsum counts));
                Metric "Average per Employee" (mean counts);
                Metric "Maximum by Single Employee" (maximum counts) ]
              ++ match employee_cancellations with
                 | [] =>
                     [Note (StInfo
                        ("No cancellations found for "
                         ++ match selected_employee with
                            | Some e => e
                            | None => "None"
                            end
                         ++ " in the selected date range."))]
                 | _ =>
                     [ RowsView employee_cancellations;
                       CountsView
                         (value_counts (map Type_ employee_cancellations)) ]
                 end) |}.

(** Lines 83-100: the start of the script on the loader's result; the
    total being finite, [int(total_procedures)] on line 92 is defined. *)
Definition prelude (loaded : list Row * Q) : M Globals :=
  let '(data, total_procedures) := loaded in
  match data with
  | [] => raise StopException
  | _ =>
      ret {| data := data;
             total_procedures := total_procedures;
             start_date := 0;
             end_date := 0;
             filtered_data := [];
             selected_employee := None;
             page := {| main_c := [Metric "Total Procedures Performed"
                                          (Some total_procedures)];
                        tab1_c := []; tab2_c := []; tab3_c := [];
                        tab4_c := [] |} |}
  end.

(** Lines 83-450: the run up to the end of tab 3. *)
Definition script_to_tab3 (loaded : list Row * Q) (inp : Inputs)
    : M Globals :=
  g <- prelude loaded ;;
  g <- tab1 inp g ;;
  g <- tab2 inp g ;;
  tab3 g.

(** One run of the script. *)
Definition script (loaded : list Row * Q) (inp : Inputs) : M Globals :=
  g <- prelude loaded ;;
  g <- tab1 inp g ;;
  g <- tab2 inp g ;;
  g <- tab3 g ;;
  tab4 inp g.

(* ================================================================== *)
(** ** Notions used to state properties *)

(** The row test of [dropna(how='all')] on a grid of [w] columns. *)
Definition row_is_empty (w : nat) (r : list cell) : bool :=
  forallb (fun j => isna (nth j r Blank)) (seq 0 w).

(** The number of records of employee [e] in category [c]. *)
Definition pair_count (fd : list Row) (e c : string) : nat :=
  List.length (group Procedure_Category c (group Created_By e fd)).

(* ================================================================== *)
(** ** Sample inputs used by the examples below *)

Module Sample.

Definition hour : Z := 3600000000000.
Definition minute : Z := 60000000000.
Definition day (n : Z) : Z := (n * ns_per_day)%Z.

Definition row (appt : option Z) (type status created_by : string)
    (created : option Z) (canceled_by : string) (canceled : option Z)
    : Row :=
  {| Appointment_Date := appt;
     Type_ := type;
     Status := status;
     Created_By := created_by;
     Created_Date := created;
     Canceled_By := canceled_by;
     Canceled_Date := canceled;
     Procedure_Category := categorize_procedure type |}.

(** Two appointments made by employee A, one of them cancelled five
    minutes after it was made; one made by C with an appointment date
    that did not parse, cancelled after two hours; one made by C and
    cancelled in the same instant. *)
Definition records : list Row :=
  [ row (Some (day 1)) "MRI brain" "Cancelled" "A"
        (Some 0%Z) "B" (Some (5 * minute)%Z);
    row (Some (day 2)) "CT chest" "Seen" "A" (Some 0%Z) "" None;
    row None "Biopsy" "Cancelled" "C" (Some 0%Z) "B" (Some (2 * hour)%Z);
    row (Some (day 3)) "Biopsy" "Cancelled" "C"
        (Some hour) "B" (Some hour) ].

(** Every range covers days 0 to 10; each selector picks its first
    option. *)
Definition inputs : Inputs :=
  {| tab1_dates := (0, 10)%Z;
     tab2_dates := (0, 10)%Z;
     tab2_employee := @hd_error string;
     tab4_dates := (0, 10)%Z;
     tab4_employee := @hd_error string |}.

(** The module-level names after lines 83-100 on these records and a
    clinic-wide total of 100. *)
Definition start : Globals :=
  {| data := records;
     total_procedures := 100;
     start_date := 0;
     end_date := 0;
     filtered_data := [];
     selected_employee := None;
     page := {| main_c := [Metric "Total Procedures Performed" (Some 100)];
                tab1_c := []; tab2_c := []; tab3_c := []; tab4_c := [] |} |}.

(** ... and after tab 1 has run on them. *)
Definition after_tab1 : Globals :=
  Eval vm_compute in
    match tab1 inputs start with
    | inr g => g
    | inl _ => start
    end.

(** A narrower choice: day 2 only, and the last option. *)
Definition inputs' : Inputs :=
  {| tab1_dates := (2, 2)%Z;
     tab2_dates := (2, 2)%Z;
     tab2_employee := fun l => hd_error (rev l);
     tab4_dates := (2, 2)%Z;
     tab4_employee := fun l => hd_error (rev l) |}.



(** The module-level names after a whole run with the narrower choice. *)
Definition after_script' : Globals :=
  Eval vm_compute in
    match script (records, 100) inputs' with
    | inr g => g
    | inl _ => start
    end.

(** An OTHER breakdown: rates 50, 60 and 20 per cent on at least five
    appointments each, and two small rows at 0 per cent. *)
Definition breakdown : list OtherType :=
  [ {| ot_Procedure_Type := "Biopsy"; ot_Total := 10; ot_Cancelled := 5;
       ot_Cancellation_Rate := 50 |};
    {| ot_Procedure_Type := "Consult"; ot_Total := 5; ot_Cancelled := 3;
       ot_Cancellation_Rate := 60 |};
    {| ot_Procedure_Type := "EEG"; ot_Total := 5; ot_Cancelled := 1;
       ot_Cancellation_Rate := 20 |};
    {| ot_Procedure_Type := "Injection"; ot_Total := 2; ot_Cancelled := 0;
       ot_Cancellation_Rate := 0 |};
    {| ot_Procedure_Type := "Follow up"; ot_Total := 1; ot_Cancelled := 0;
       ot_Cancellation_Rate := 0 |} ].

(** pandas' parsers on the cells used here: a time stamp is itself, a
    number is itself, anything else does not parse. *)
Definition to_datetime (c : cell) : option Z :=
  match c with
  | Stamp ns => Some ns
  | _ => None
  end.

Definition to_numeric (c : cell) : option Q :=
  match c with
  | Num q => Some q
  | _ => None
  end.

Definition raw_rows : list RawRow :=
  [ {| raw_Appt_Date := Stamp (day 1); raw_Type := "MRI brain";
       raw_Status := "Cancelled"; raw_Created_By := "A";
       raw_Created_Date_Time := Stamp 0; raw_Canceled_By := "B";
       raw_Canceled_Date_Time := Stamp (5 * minute) |};
    {| raw_Appt_Date := Str "n/a"; raw_Type := "Biopsy";
       raw_Status := "Seen"; raw_Created_By := "C";
       raw_Created_Date_Time := Stamp 0; raw_Canceled_By := "";
       raw_Canceled_Date_Time := Blank |} ].

Definition grid : Grid :=
  {| width := 3;
     rows := [ [Str "MRI"; Num 40; Num 2];
               [Blank; Blank; Blank];
               [Str "CT"; Str "n/a"; Num 58] ] |}.

End Sample.

(* ================================================================== *)
(** * Properties *)

(** ** Lists: the stable sort keeps the elements *)

Lemma insert_by_perm {A} (le : A -> A -> bool) x l :
  Permutation (insert_by le x l) (x :: l).
Proof.
  induction l as [|y l IH]; simpl.
  - apply Permutation_refl.
  - destruct (le y x).
    + eapply Permutation_trans; [apply perm_skip, IH | apply perm_swap].
    + apply Permutation_refl.
Qed.

Lemma fold_insert_perm {A} (le : A -> A -> bool) l : forall acc,
  Permutation (fold_left (fun acc x => insert_by le x acc) l acc) (l ++ acc).
Proof.
  induction l as [|x l IH]; intro acc; simpl.
  - apply Permutation_refl.
  - eapply Permutation_trans; [apply IH|].
    eapply Permutation_trans.
    + apply Permutation_app_head, insert_by_perm.
    + apply Permutation_sym, Permutation_middle.
Qed.

Lemma sort_by_perm {A} (le : A -> A -> bool) l :
  Permutation (sort_by le l) l.
Proof.
  unfold sort_by.
  eapply Permutation_trans; [apply fold_insert_perm|].
  rewrite app_nil_r. apply Permutation_refl.
Qed.

Lemma sort_by_In {A} (le : A -> A -> bool) l x :
  In x (sort_by le l) <-> In x l.
Proof.
  split; apply Permutation_in;
    [apply sort_by_perm | apply Permutation_sym, sort_by_perm].
Qed.

Lemma sort_by_length {A} (le : A -> A -> bool) l :
  List.length (sort_by le l) = List.length l.
Proof. apply Permutation_length, sort_by_perm. Qed.

(** ** Numbers *)

Lemma Qltb_lt x y : Qltb x y = true <-> (x < y)%Q.
Proof.
  unfold Qltb. rewrite negb_true_iff. split; intro H.
  - apply Qnot_le_lt. intro Hle. apply Qle_bool_iff in Hle. congruence.
  - destruct (Qle_bool y x) eqn:E; [|reflexivity].
    apply Qle_bool_iff in E. exfalso. exact (Qlt_not_le _ _ H E).
Qed.

Lemma Qltb_ge x y : Qltb x y = false <-> (y <= x)%Q.
Proof.
  unfold Qltb. rewrite negb_false_iff. apply Qle_bool_iff.
Qed.

(** ** Strings: [in] is the substring relation *)

Lemma prefix_iff n h :
  prefix n h = true <-> exists post, h = n ++ post.
Proof.
  revert h. induction n as [|c n IH]; intro h.
  - split; [intros _; exists h; reflexivity | destruct h; reflexivity].
  - destruct h as [|d h]; simpl.
    + split; [discriminate | intros [post H]; discriminate].
    + destruct (ascii_dec c d) as [->|Hne].
      * rewrite IH. split; intros [post H]; exists post.
        -- now rewrite H.
        -- now inversion H.
      * split; [discriminate | intros [post H]; inversion H; congruence].
Qed.

Lemma contains_iff n h :
  PyStr.contains n h = true <-> exists pre post, h = pre ++ n ++ post.
Proof.
  induction h as [|d h IH].
  - change (PyStr.contains n "") with (prefix n "" || false).
    rewrite orb_false_r, prefix_iff. split.
    + intros [post H]. exists "", post. exact H.
    + intros [pre [post H]]. destruct pre; simpl in H.
      * now exists post.
      * discriminate.
  - change (PyStr.contains n (String d h))
      with (prefix n (String d h) || PyStr.contains n h).
    rewrite orb_true_iff, prefix_iff, IH. split.
    + intros [[post H] | [pre [post H]]].
      * exists "", post. exact H.
      * exists (String d pre), post. simpl. now rewrite H.
    + intros [pre [post H]]. destruct pre as [|c pre]; simpl in H.
      * left. now exists post.
      * right. inversion H. now exists pre, post.
Qed.

Lemma append_assoc' (a b c : string) : (a ++ b) ++ c = a ++ b ++ c.
Proof. induction a; simpl; [reflexivity | now rewrite IHa]. Qed.

Lemma contains_trans a b c :
  PyStr.contains a b = true -> PyStr.contains b c = true ->
  PyStr.contains a c = true.
Proof.
  rewrite !contains_iff.
  intros [p1 [q1 ->]] [p2 [q2 ->]].
  exists (p2 ++ p1), (q1 ++ q2).
  now rewrite !append_assoc'.
Qed.

(* ================================================================== *)
(** ** The classifier *)

Lemma keyword_in_true keywords text :
  keyword_in keywords text = true <->
  exists k, In k keywords /\ PyStr.contains k text = true.
Proof. apply existsb_exists. Qed.

Lemma keyword_in_false keywords text :
  keyword_in keywords text = false <->
  forall k, In k keywords -> PyStr.contains k text = false.
Proof.
  unfold keyword_in, PyStr.any. induction keywords as [|k ks IH]; simpl.
  - split; [intros _ k [] | reflexivity].
  - rewrite orb_false_iff, IH. split.
    + intros [Hk Hks] k' [<-|Hin]; auto.
    + intro H. split; [apply H; now left | intros k' Hin; apply H; now right].
Qed.

(** The loop returns the first category of the list that has a keyword
    in the text, and 'OTHER' when no category has one. *)
Lemma first_match_spec cats text :
  (first_match cats text = "OTHER" /\
   forall c ks, In (c, ks) cats -> keyword_in ks text = false)
  \/
  (exists before c ks after,
      cats = (before ++ (c, ks) :: after)%list /\
      first_match cats text = c /\
      keyword_in ks text = true /\
      forall c' ks', In (c', ks') before -> keyword_in ks' text = false).
Proof.
  induction cats as [|[c ks] rest IH]; simpl.
  - left. split; [reflexivity | intros c ks []].
  - destruct (keyword_in ks text) eqn:E.
    + right. exists [], c, ks, rest. repeat split; auto. intros c' ks' [].
    + destruct IH as [[Ho Hno] | [before [c' [ks' [after [Hc [Hf [Hk Hb]]]]]]]].
      * left. split; [exact Ho|]. intros c' ks' [Heq|Hin].
        -- inversion Heq; subst; exact E.
        -- eapply Hno; eauto.
      * right. exists ((c, ks) :: before), c', ks', after.
        repeat split; auto.
        -- simpl. now rewrite Hc.
        -- intros c'' ks'' [Heq|Hin].
           ++ inversion Heq; subst; exact E.
           ++ eapply Hb; eauto.
Qed.

(** X3: every keyword of the table but 'PET/CT', 'PET CT' and
    'CONDUCTION' is classified, in upper and in lower case, as the category that lists
    it. *)
Lemma keyword_self_classification c ks k :
  In (c, ks) categories -> In k ks ->
  k <> "PET/CT" -> k <> "PET CT" -> k <> "CONDUCTION" ->
  categorize_procedure k = c /\ categorize_procedure (PyStr.lower k) = c.
Proof.
  intros Hc Hk N1 N2 N3. unfold categories in Hc. simpl in Hc.
  repeat (destruct Hc as [Hc|Hc];
          [ inversion Hc; subst c ks; clear Hc; simpl in Hk;
            repeat (destruct Hk as [Hk|Hk];
                    [ subst k;
                      first [ split; vm_compute; reflexivity
                            | exfalso; congruence ] | ]);
            contradiction | ]).
  contradiction.
Qed.

(** The category 'PET/CT' is never the result: a text that holds one of
    its keywords holds 'CT', whose category comes first. *)
Lemma PET_CT_is_never_returned s : categorize_procedure s <> "PET/CT".
Proof.
  unfold categorize_procedure, categories.
  set (u := PyStr.upper s). cbn [first_match].
  repeat match goal with
         | |- (if ?b then _ else _) <> _ =>
             destruct b eqn:?; [try discriminate|]
         end; [|discriminate].
  intros _.
  match goal with
  | Hct : keyword_in ("CT" :: _) _ = false,
    Hpet : keyword_in ("PET/CT" :: _) _ = true |- _ =>
      apply keyword_in_true in Hpet; destruct Hpet as [k [Hin Hk]];
      pose proof (proj1 (keyword_in_false _ _) Hct "CT" (or_introl eq_refl))
        as Hno
  end.
  assert (PyStr.contains "CT" u = true) as Habs.
  { apply contains_trans with (b := k); [|exact Hk].
    destruct Hin as [<-|[<-|[]]]; reflexivity. }
  rewrite Hno in Habs. discriminate.
Qed.

(** C1 (as the code has it): the keywords 'PET/CT' and 'PET CT' of
    category 'PET/CT', and the keyword 'CONDUCTION' of category 'NCS', are
    themselves classified as 'CT', in upper and in lower case: each holds
    the keyword 'CT' of a category that comes earlier in the table. *)
Theorem keywords_classified_as_CT :
  In ("PET/CT", ["PET/CT"; "PET CT"]) categories /\
  In ("NCS", ["NCS"; "NERVE"; "CONDUCTION"]) categories /\
  categorize_procedure "PET/CT" = "CT" /\
  categorize_procedure (PyStr.lower "PET/CT") = "CT" /\
  categorize_procedure "PET CT" = "CT" /\
  categorize_procedure (PyStr.lower "PET CT") = "CT" /\
  categorize_procedure "CONDUCTION" = "CT" /\
  categorize_procedure (PyStr.lower "CONDUCTION") = "CT".
Proof.
  split; [unfold categories; simpl; tauto|].
  split; [unfold categories; simpl; tauto|].
  repeat split; vm_compute; reflexivity.
Qed.

(** C6: the categories are tried in the order OPEN MRI, US, CT, SLEEP
    STUDY, MRI, PET/CT, XRAY, MAMMOGRAM, NCS, BONE DENSITY, NUCLEAR
    MEDICINE, CARDIAC PET; the result is the first of them that has a
    keyword occurring in the upper-cased input (no earlier category has
    one), and 'OTHER' when none has; 'OPEN MRI SCAN' is 'OPEN MRI', not
    'MRI'. *)
Theorem categorize_procedure_first_match_wins :
  map fst categories =
    ["OPEN MRI"; "US"; "CT"; "SLEEP STUDY"; "MRI"; "PET/CT"; "XRAY";
     "MAMMOGRAM"; "NCS"; "BONE DENSITY"; "NUCLEAR MEDICINE"; "CARDIAC PET"]
  /\
  (forall s,
     (categorize_procedure s = "OTHER" /\
      forall c ks k, In (c, ks) categories -> In k ks ->
                     ~ exists pre post, PyStr.upper s = pre ++ k ++ post)
     \/
     (exists before c ks after,
        categories = (before ++ (c, ks) :: after)%list /\
        categorize_procedure s = c /\
        (exists k pre post, In k ks /\ PyStr.upper s = pre ++ k ++ post) /\
        forall c' ks' k', In (c', ks') before -> In k' ks' ->
                          ~ exists pre post, PyStr.upper s = pre ++ k' ++ post))
  /\
  categorize_procedure "OPEN MRI SCAN" = "OPEN MRI" /\
  categorize_procedure "OPEN MRI SCAN" <> "MRI".
Proof.
  split; [reflexivity|]. split.
  - intro s. unfold categorize_procedure.
    assert (Hno : forall ks k, keyword_in ks (PyStr.upper s) = false ->
                   In k ks ->
                   ~ exists pre post, PyStr.upper s = pre ++ k ++ post).
    { intros ks k Hf Hin Hex. apply contains_iff in Hex.
      rewrite keyword_in_false in Hf. rewrite (Hf k Hin) in Hex.
      discriminate. }
    destruct (first_match_spec categories (PyStr.upper s))
      as [[Ho Hnone] | [before [c [ks [after [Hc [Hf [Hk Hb]]]]]]]].
    + left. split; [exact Ho|]. intros c ks k Hin Hk. eauto.
    + right. exists before, c, ks, after. repeat split; auto.
      * apply keyword_in_true in Hk. destruct Hk as [k [Hin Hk]].
        apply contains_iff in Hk. destruct Hk as [pre [post Hk]].
        now exists k, pre, post.
      * intros c' ks' k' Hin Hk'. eauto.
  - split; [reflexivity | discriminate].
Qed.

(* ================================================================== *)
(** ** Grouping *)

Lemma groupby_keys_In ks k : In k (groupby_keys ks) <-> In k ks.
Proof.
  unfold groupby_keys. rewrite sort_by_In. apply nodup_In.
Qed.

Lemma groupby_keys_NoDup ks : NoDup (groupby_keys ks).
Proof.
  unfold groupby_keys.
  eapply Permutation_NoDup;
    [apply Permutation_sym, sort_by_perm | apply NoDup_nodup].
Qed.

Lemma list_sum_map_add {A} (f g : A -> nat) l :
  list_sum (map (fun x => (f x + g x)%nat) l)
  = (list_sum (map f l) + list_sum (map g l))%nat.
Proof. induction l as [|x l IH]; simpl; [reflexivity | lia]. Qed.

Lemma list_sum_indicator_out (a : string) (n : nat) ks :
  ~ In a ks ->
  list_sum (map (fun k => if a =? k then n else 0%nat) ks) = 0%nat.
Proof.
  induction ks as [|k ks IH]; simpl; intro Hn; [reflexivity|].
  destruct (String.eqb_spec a k) as [->|Hne].
  - exfalso. apply Hn. now left.
  - apply IH. intro Hin. apply Hn. now right.
Qed.

Lemma list_sum_indicator_in (a : string) (n : nat) ks :
  NoDup ks -> In a ks ->
  list_sum (map (fun k => if a =? k then n else 0%nat) ks) = n.
Proof.
  induction ks as [|k ks IH]; simpl; intros Hnd Hin; [contradiction|].
  inversion Hnd as [|? ? Hnotin Hnd']; subst.
  destruct (String.eqb_spec a k) as [->|Hne].
  - rewrite list_sum_indicator_out by assumption. lia.
  - destruct Hin as [->|Hin]; [congruence|]. now apply IH.
Qed.

(** Summing a count over the groups of a [groupby] counts every row
    once, provided each row's key is among the keys and no key is there
    twice. *)
Lemma groupby_sum {A} (key : A -> string) (p : A -> bool) rs ks :
  NoDup ks -> (forall r, In r rs -> In (key r) ks) ->
  list_sum (map (fun k => List.length (filter p (group key k rs))) ks)
  = List.length (filter p rs).
Proof.
  intros Hnd. induction rs as [|r rs IH]; intro Hkeys.
  - simpl. clear. induction ks; simpl; auto.
  - rewrite (map_ext _
      (fun k => ((if (key r =? k)%string then (if p r then 1 else 0) else 0)
                 + List.length (filter p (group key k rs)))%nat)).
    + rewrite list_sum_map_add, IH
        by (intros r' Hr'; apply Hkeys; now right).
      rewrite list_sum_indicator_in;
        [| exact Hnd | apply Hkeys; now left].
      simpl. destruct (p r); reflexivity.
    + intro k. unfold group. simpl.
      destruct (key r =? k); simpl; [destruct (p r)|]; reflexivity.
Qed.

Lemma map_combine_fst {A B C} (f : A -> C) (g : A -> B) (l : list A) :
  map (fun '(a, _) => f a) (combine l (map g l)) = map f l.
Proof. induction l as [|x l IH]; simpl; [reflexivity | now rewrite IH]. Qed.

(* ================================================================== *)
(** ** Tab 1: cancellations by category *)

(** C5: for every record set and date range, the cancelled counts of the
    categories of the date-filtered subset add up to the number of its
    records whose status is 'Cancelled'. *)
Theorem cancelled_by_category_total :
  forall (data : list Row) (start_date end_date : Z),
    let filtered_data := filter (mask start_date end_date) data in
    list_sum (map snd (cancelled_by_category filtered_data))
    = count_cancelled filtered_data.
Proof.
  intros data s e fd. unfold cancelled_by_category, count_cancelled.
  rewrite map_map. simpl.
  apply groupby_sum.
  - apply groupby_keys_NoDup.
  - intros r Hr. apply groupby_keys_In, in_map, Hr.
Qed.

(** With a positive clinic-wide total, [proc_metrics] returns one row per
    category of the subset, its cancelled counts add up to the number of
    cancelled records, and each rate is [cancelled / total * 100] rounded
    to one decimal. *)
Lemma proc_metrics_positive_total filtered_data total :
  (0 < total)%Q ->
  exists pm,
    proc_metrics filtered_data total = inr pm /\
    list_sum (map pm_Cancelled pm) = count_cancelled filtered_data /\
    Forall (fun m => pm_Cancellation_Rate m
                     = round1 (Qof_nat (pm_Cancelled m) / total * 100)) pm.
Proof.
  intro Hpos. apply Qltb_lt in Hpos.
  unfold proc_metrics, cancellation_rate_column. rewrite Hpos. simpl.
  eexists. split; [reflexivity|].
  set (counts := cancelled_by_category filtered_data).
  assert (Hcounts : list_sum (map snd counts) = count_cancelled filtered_data).
  { unfold counts, cancelled_by_category, count_cancelled.
    rewrite map_map. simpl. apply groupby_sum.
    - apply groupby_keys_NoDup.
    - intros r Hr. apply groupby_keys_In, in_map, Hr. }
  split.
  - rewrite (Permutation_list_sum
               (Permutation_map pm_Cancelled (sort_by_perm _ _))).
    rewrite <- Hcounts. f_equal.
    rewrite map_map. clear Hcounts.
    induction counts as [|[k c] l IH]; simpl; [reflexivity | now rewrite IH].
  - apply Forall_forall. intros m Hm. apply sort_by_In in Hm.
    apply in_map_iff in Hm. destruct Hm as [[[k c] r] [<- Hin]]. simpl.
    clear Hcounts. induction counts as [|[k' c'] l IH]; simpl in Hin.
    + contradiction.
    + destruct Hin as [Heq|Hin]; [inversion Heq; reflexivity | auto].
Qed.

(** C2 (as the code has it): when the clinic-wide total is not positive
    the rate column is [(0).round(1)], which raises AttributeError
    whatever the records are: no rate is produced. *)
Theorem proc_metrics_raises_without_total :
  forall (filtered_data : list Row) (total : Q),
    (total <= 0)%Q ->
    proc_metrics filtered_data total
    = inl (AttributeError "'int' object has no attribute 'round'").
Proof.
  intros fd total Hle. apply Qltb_ge in Hle.
  unfold proc_metrics, cancellation_rate_column. rewrite Hle. reflexivity.
Qed.

Lemma proc_metrics_raises_without_total_witness :
  (0 <= 0)%Q /\
  proc_metrics Sample.records 0
  = inl (AttributeError "'int' object has no attribute 'round'").
Proof.
  split.
  - apply Qle_refl.
  - apply (proc_metrics_raises_without_total Sample.records 0). apply Qle_refl.
Defined.

(** A run of the script on records with a clinic-wide total of 0 ends in
    that AttributeError. *)
Lemma script_raises_without_total :
  script (Sample.records, 0) Sample.inputs
  = inl (AttributeError "'int' object has no attribute 'round'").
Proof. vm_compute. reflexivity. Qed.

(* ================================================================== *)
(** ** Tab 1: the high-cancellation subset of the OTHER breakdown *)

(** C3: a row is in [high_cancel] exactly when it is a row of the OTHER
    breakdown with [Total >= 5] whose rate is strictly above the median
    of the rates of all rows of the breakdown (rows below the volume
    cutoff included); hence no row with [Total < 5] is in it. *)
Theorem high_cancel_exactly :
  forall (other_types : list OtherType),
    (forall r,
       In r (high_cancel other_types) <->
       In r other_types /\ (5 <= ot_Total r)%nat /\
       exists m, median (map ot_Cancellation_Rate other_types) = Some m /\
                 (m < ot_Cancellation_Rate r)%Q)
    /\
    Forall (fun r => ~ (ot_Total r < 5)%nat) (high_cancel other_types).
Proof.
  intro ot.
  assert (Hiff : forall r,
       In r (high_cancel ot) <->
       In r ot /\ (5 <= ot_Total r)%nat /\
       exists m, median (map ot_Cancellation_Rate ot) = Some m /\
                 (m < ot_Cancellation_Rate r)%Q).
  { intro r. unfold high_cancel. rewrite sort_by_In, filter_In.
    unfold high_cancel_mask. rewrite andb_true_iff, Nat.leb_le.
    destruct (median (map ot_Cancellation_Rate ot)) as [m|]; simpl.
    - rewrite Qltb_lt. split.
      + intros [Hin [Ht Hm]]. repeat split; auto. now exists m.
      + intros [Hin [Ht [m' [Heq Hm]]]]. inversion Heq; subst. auto.
    - split.
      + intros [_ [_ Hf]]. discriminate.
      + intros [_ [_ [m' [Heq _]]]]. discriminate. }
  split; [exact Hiff|].
  apply Forall_forall. intros r Hr. apply Hiff in Hr. lia.
Qed.

(** On the sample breakdown the median of all five rates is 20, so the
    rows at 60 and at 50 per cent are selected. Taking the median of the
    rows that pass the volume cutoff instead (50) would select the row at
    60 per cent only. *)
Lemma high_cancel_sample :
  median (map ot_Cancellation_Rate Sample.breakdown) = Some 20 /\
  map ot_Procedure_Type (high_cancel Sample.breakdown)
  = ["Consult"; "Biopsy"] /\
  let large := filter (fun r => (5 <=? ot_Total r)%nat) Sample.breakdown in
  median (map ot_Cancellation_Rate large) = Some 50 /\
  map ot_Procedure_Type
      (filter (fun r => gt_nan (ot_Cancellation_Rate r)
                               (median (map ot_Cancellation_Rate large)))
              large)
  = ["Consult"].
Proof. repeat split; vm_compute; reflexivity. Qed.

(* ================================================================== *)
(** ** The loader *)

(** C7: when the cancellation sheet loads and reading the 'Patients Seen
    Report' sheet raises, [load_data] returns the normalized appointment
    records with a total of 0 and shows one warning, nothing else; the
    records are those it returns when the second sheet loads. *)
Theorem load_data_secondary_sheet_failure :
  forall (to_datetime : cell -> option Z) (to_numeric : cell -> option Q)
         (path : string) (raw : list RawRow) (e : exn),
    load_data to_datetime to_numeric
      {| file_path := path;
         workbook := Some {| cancel_sheet := inr raw; seen_sheet := inl e |} |}
    = ((map (normalize to_datetime) raw, 0),
       [StWarning ("Could not process Patients Seen Report: " ++ exn_str e)])
    /\
    forall grid : Grid,
      fst (fst (load_data to_datetime to_numeric
                  {| file_path := path;
                     workbook := Some {| cancel_sheet := inr raw;
                                         seen_sheet := inr grid |} |}))
      = map (normalize to_datetime) raw.
Proof.
  intros. split; reflexivity.
Qed.

(** On the sample workbook: two records, the second with an appointment
    date that does not parse, and a total of 40 + 2 + 0 + 58 (the label
    column and the empty row do not count, the text cell counts 0); with
    the second sheet missing, the same records and a total of 0. *)
Lemma load_data_sample :
  let wb grid := {| file_path := "dashboard_data.xlsx";
                    workbook := Some {| cancel_sheet := inr Sample.raw_rows;
                                        seen_sheet := grid |} |} in
  let loaded := load_data Sample.to_datetime Sample.to_numeric
                  (wb (inr Sample.grid)) in
  let degraded := load_data Sample.to_datetime Sample.to_numeric
                    (wb (inl (Exception "Worksheet not found"))) in
  map Appointment_Date (fst (fst loaded)) = [Some (Sample.day 1); None] /\
  map Procedure_Category (fst (fst loaded)) = ["MRI"; "OTHER"] /\
  (snd (fst loaded) == 100)%Q /\
  snd loaded = [] /\
  fst (fst degraded) = fst (fst loaded) /\
  snd (fst degraded) = 0 /\
  snd degraded
  = [StWarning "Could not process Patients Seen Report: Worksheet not found"].
Proof. repeat split; vm_compute; reflexivity. Qed.

(* ================================================================== *)
(** ** The date filter *)

Lemma mask_true start_date end_date r :
  mask start_date end_date r = true <->
  exists t, Appointment_Date r = Some t /\
            (start_date <= date_of t <= end_date)%Z.
Proof.
  unfold mask. destruct (Appointment_Date r) as [t|].
  - rewrite andb_true_iff, !Z.leb_le. split.
    + intro H. exists t. split; [reflexivity | lia].
    + intros [t' [Heq H]]. inversion Heq; subst. lia.
  - split; [discriminate | intros [t [Heq _]]; discriminate].
Qed.

(** A record whose appointment date is NaT passes no date filter. *)
Lemma NaT_is_filtered_out data start_date end_date r :
  Appointment_Date r = None ->
  ~ In r (filter (mask start_date end_date) data).
Proof.
  intros Hnat Hin. apply filter_In in Hin. destruct Hin as [_ Hm].
  apply mask_true in Hm. destruct Hm as [t [Heq _]]. congruence.
Qed.

Lemma proc_metrics_cases filtered_data total :
  (Qltb 0 total = true /\ exists pm, proc_metrics filtered_data total = inr pm)
  \/
  (Qltb 0 total = false /\
   proc_metrics filtered_data total
   = inl (AttributeError "'int' object has no attribute 'round'")).
Proof.
  unfold proc_metrics, cancellation_rate_column.
  destruct (Qltb 0 total); [left | right]; split; try reflexivity.
  simpl. eexists. reflexivity.
Qed.

(** The working set each filtered tab binds to [filtered_data]. *)
Lemma tab1_filtered_data inp g g' :
  tab1 inp g = inr g' ->
  filtered_data g'
  = filter (mask (fst (tab1_dates inp)) (snd (tab1_dates inp))) (data g).
Proof.
  unfold tab1. destruct (date_bounds (data g)); [discriminate|]. simpl.
  destruct (tab1_dates inp) as [s e]. simpl.
  destruct (proc_metrics _ _); [discriminate|]. simpl.
  intro H. inversion H. reflexivity.
Qed.

Lemma tab2_filtered_data inp g g' :
  tab2 inp g = inr g' ->
  filtered_data g'
  = filter (mask (fst (tab2_dates inp)) (snd (tab2_dates inp))) (data g).
Proof.
  unfold tab2. destruct (date_bounds (data g)); [discriminate|]. simpl.
  destruct (tab2_dates inp) as [s e]. simpl.
  intro H. inversion H. reflexivity.
Qed.

Lemma tab4_filtered_data inp g g' :
  tab4 inp g = inr g' ->
  filtered_data g'
  = filter (mask (fst (tab4_dates inp)) (snd (tab4_dates inp))) (data g).
Proof.
  unfold tab4. destruct (date_bounds (data g)); [discriminate|]. simpl.
  destruct (tab4_dates inp) as [s e]. simpl.
  intro H. inversion H. reflexivity.
Qed.

(** C9: whatever the date ranges given, every record of the working set
    [filtered_data] that tab 1, tab 2 or tab 4 aggregates is a record of
    [data] whose appointment date is not NaT (and lies in the range);
    records with a NaT appointment date are in none of them. *)
Theorem filtered_data_has_appointment_date :
  forall (inp : Inputs) (g g' : Globals),
    tab1 inp g = inr g' \/ tab2 inp g = inr g' \/ tab4 inp g = inr g' ->
    Forall (fun r => In r (data g) /\ Appointment_Date r <> None)
           (filtered_data g').
Proof.
  intros inp g g' H.
  assert (exists s e, filtered_data g' = filter (mask s e) (data g))
    as [s [e ->]].
  { destruct H as [H | [H | H]]; do 2 eexists;
      [ apply (tab1_filtered_data _ _ _ H)
      | apply (tab2_filtered_data _ _ _ H)
      | apply (tab4_filtered_data _ _ _ H) ]. }
  apply Forall_forall. intros r Hr. split.
  - apply filter_In in Hr. tauto.
  - intro Hnat. exact (NaT_is_filtered_out _ _ _ _ Hnat Hr).
Qed.

Lemma filtered_data_has_appointment_date_witness :
  (tab1 Sample.inputs Sample.start = inr Sample.after_tab1 \/
   tab2 Sample.inputs Sample.start = inr Sample.after_tab1 \/
   tab4 Sample.inputs Sample.start = inr Sample.after_tab1) /\
  Forall (fun r => In r (data Sample.start) /\ Appointment_Date r <> None)
         (filtered_data Sample.after_tab1).
Proof.
  assert (H : tab1 Sample.inputs Sample.start = inr Sample.after_tab1)
    by (vm_compute; reflexivity).
  split.
  - left. exact H.
  - apply (filtered_data_has_appointment_date
             Sample.inputs Sample.start Sample.after_tab1).
    left. exact H.
Defined.

(** On the sample records the row whose appointment date is NaT is the
    only one left out of the widest range. *)
Lemma filtered_data_sample :
  map Appointment_Date Sample.records
  = [Some (Sample.day 1); Some (Sample.day 2); None; Some (Sample.day 3)] /\
  map Appointment_Date (filtered_data Sample.after_tab1)
  = [Some (Sample.day 1); Some (Sample.day 2); Some (Sample.day 3)].
Proof. split; vm_compute; reflexivity. Qed.

(* ================================================================== *)
(** ** Tab 3: time to cancellation *)

Ltac Qle_bool_to_prop :=
  repeat match goal with
  | H : Qle_bool _ _ = true |- _ => apply Qle_bool_iff in H
  | H : Qle_bool ?a ?b = false |- _ =>
      let Hn := fresh "Hn" in
      assert (Hn : ~ (a <= b)%Q)
        by (rewrite <- Qle_bool_iff; rewrite H; discriminate);
      clear H
  end.

Ltac Qle_bool_cases :=
  repeat match goal with
  | |- context [Qle_bool ?a ?b] => destruct (Qle_bool a b) eqn:?
  end;
  simpl; try reflexivity; exfalso; Qle_bool_to_prop; lra.

(** X4: the intervals of [pd.cut] are open on the left and closed on
    the right; an elapsed time of zero or less is in none of them. *)
Lemma time_category_intervals h :
  ((h <= 0)%Q -> time_category h = None) /\
  ((0 < h)%Q -> (h <= 1667 # 10000)%Q ->
   time_category h = Some "<10 mins") /\
  ((1667 # 10000 < h)%Q -> (h <= 1)%Q -> time_category h = Some "10m-1h") /\
  ((1 < h)%Q -> (h <= 5)%Q -> time_category h = Some "1-5h") /\
  ((5 < h)%Q -> (h <= 24)%Q -> time_category h = Some "5-24h") /\
  ((24 < h)%Q -> time_category h = Some ">24h").
Proof.
  unfold time_category, bins, labels, cut, edge_lt, le_edge, Qltb.
  repeat split; intros; Qle_bool_cases.
Qed.

(** The rows kept for the buckets are the cancelled rows with both dates
    present, and the elapsed time is their difference in hours. *)
Lemma time_to_cancellation_present r :
  (forall h, time_to_cancellation r = Some h ->
     exists created canceled,
       Created_Date r = Some created /\ Canceled_Date r = Some canceled /\
       h = inject_Z (canceled - created) / 1000000000 / 3600) /\
  (time_to_cancellation r = None <->
   Created_Date r = None \/ Canceled_Date r = None).
Proof.
  unfold time_to_cancellation.
  destruct (Canceled_Date r) as [c|], (Created_Date r) as [s|]; split;
    try (intros h H; inversion H; eauto);
    try (split; [intro H; try discriminate; auto
                | intros [H|H]; try discriminate; auto]).
Qed.

(** A cancellation five minutes after the creation is in bucket
    '<10 mins', one two hours after it in bucket '1-5h'. *)
Lemma time_category_scenarios (T : Z) (appt : option Z) :
  let later d :=
    Sample.row appt "MRI" "Cancelled" "A" (Some T) "B" (Some (T + d)%Z) in
  (exists h, time_to_cancellation (later (5 * Sample.minute)%Z) = Some h /\
             time_category h = Some "<10 mins") /\
  (exists h, time_to_cancellation (later (2 * Sample.hour)%Z) = Some h /\
             time_category h = Some "1-5h").
Proof.
  intro later. unfold later, time_to_cancellation, Sample.row.
  cbn [Canceled_Date Created_Date].
  split; eexists; (split; [reflexivity|]).
  - replace (T + 5 * Sample.minute - T)%Z with (5 * Sample.minute)%Z by lia.
    vm_compute. reflexivity.
  - replace (T + 2 * Sample.hour - T)%Z with (2 * Sample.hour)%Z by lia.
    vm_compute. reflexivity.
Qed.

(** C8 (as the code has it): a cancelled record whose two dates are
    present and equal has a computable elapsed time of 0 hours, is kept by
    [dropna], and is assigned no bucket: its 'Time Category' is NaN, the
    interval of '<10 mins' being open at 0. *)
Theorem zero_elapsed_time_has_no_bucket :
  let r := Sample.row (Some (Sample.day 3)) "Biopsy" "Cancelled" "C"
                      (Some Sample.hour) "B" (Some Sample.hour) in
  In r Sample.records /\
  is_cancelled r = true /\
  (exists h, time_to_cancellation r = Some h /\ (h == 0)%Q) /\
  map time_category
      (dropna (map time_to_cancellation (filter is_cancelled [r])))
  = [None] /\
  nth_error (timing_view [r]) 0 = Some (PieView [None]) /\
  time_category 0 = None.
Proof.
  intro r. split; [unfold Sample.records; simpl; tauto|].
  split; [reflexivity|].
  split; [eexists; split; [reflexivity | reflexivity]|].
  repeat split; vm_compute; reflexivity.
Qed.

(* ================================================================== *)
(** ** Tab 2 and the clinic-wide total *)

(** After tab 2 the module-level name [total_procedures] holds the number
    of records of the selected employee in the date range. *)
Lemma tab2_total_procedures inp g g' :
  tab2 inp g = inr g' ->
  total_procedures g'
  = Qof_nat (List.length
               (filter (is_selected Created_By (selected_employee g'))
                       (filtered_data g'))).
Proof.
  unfold tab2. destruct (date_bounds (data g)); [discriminate|]. simpl.
  destruct (tab2_dates inp) as [s e]. simpl.
  intro H. inversion H. reflexivity.
Qed.

(** C4 (as the code has it): with a clinic-wide total of 100 from the
    loader, once tab 2 has run for employee A (two records) the name
    [total_procedures] holds 2, and still does at the end of the run. *)
Theorem tab2_rebinds_total_procedures :
  total_procedures Sample.start = 100 /\
  fmap selected_employee (tab2 Sample.inputs Sample.after_tab1)
  = inr (Some "A") /\
  fmap total_procedures (tab2 Sample.inputs Sample.after_tab1)
  = inr (Qof_nat 2) /\
  fmap total_procedures (script (Sample.records, 100) Sample.inputs)
  = inr (Qof_nat 2) /\
  ~ (Qof_nat 2 == 100)%Q.
Proof.
  split; [reflexivity|].
  split; [vm_compute; reflexivity|].
  split; [vm_compute; reflexivity|].
  split; [vm_compute; reflexivity|].
  intro H. vm_compute in H. discriminate.
Qed.

(* ================================================================== *)
(** ** Tab 3 and the date ranges *)

(** What each tab leaves alone. *)
Lemma tab1_frame inp g :
  match date_bounds (data g) with
  | inl e => tab1 inp g = inl e
  | inr _ =>
      if Qltb 0 (total_procedures g)
      then exists g', tab1 inp g = inr g' /\
                      data g' = data g /\
                      total_procedures g' = total_procedures g /\
                      tab3_c (page g') = tab3_c (page g)
      else tab1 inp g
           = inl (AttributeError "'int' object has no attribute 'round'")
  end.
Proof.
  unfold tab1. destruct (date_bounds (data g)) as [e|u]; [reflexivity|].
  cbn [bind]. destruct (tab1_dates inp) as [s1 e1].
  destruct (proc_metrics_cases (filter (mask s1 e1) (data g))
              (total_procedures g))
    as [[Hpos [pm Hpm]] | [Hneg Hpm]]; rewrite Hpm.
  - rewrite Hpos. cbn [bind]. eexists. split; [reflexivity|].
    repeat split.
  - rewrite Hneg. reflexivity.
Qed.

Lemma tab2_frame inp g :
  match date_bounds (data g) with
  | inl e => tab2 inp g = inl e
  | inr _ =>
      exists g', tab2 inp g = inr g' /\
                 data g' = data g /\
                 tab3_c (page g') = tab3_c (page g)
  end.
Proof.
  unfold tab2. destruct (date_bounds (data g)) as [e|u]; [reflexivity|].
  cbn [bind]. destruct (tab2_dates inp) as [s2 e2].
  eexists. split; [reflexivity|]. repeat split.
Qed.

Lemma tab3_frame g :
  exists g', tab3 g = inr g' /\
             data g' = data g /\
             total_procedures g' = total_procedures g /\
             tab3_c (page g') = (tab3_c (page g) ++ timing_view (data g))%list.
Proof. eexists. split; [reflexivity|]. repeat split. Qed.

Lemma tab4_frame inp g :
  match date_bounds (data g) with
  | inl e => tab4 inp g = inl e
  | inr _ =>
      exists g', tab4 inp g = inr g' /\
                 data g' = data g /\
                 total_procedures g' = total_procedures g /\
                 tab3_c (page g') = tab3_c (page g)
  end.
Proof.
  unfold tab4. destruct (date_bounds (data g)) as [e|u]; [reflexivity|].
  cbn [bind]. destruct (tab4_dates inp) as [s4 e4].
  eexists. split; [reflexivity|]. repeat split.
Qed.

(** A tab that completes leaves [data] and the page of tab 3 alone. *)
Lemma tab1_keeps inp g g' :
  tab1 inp g = inr g' ->
  data g' = data g /\ tab3_c (page g') = tab3_c (page g).
Proof.
  intro H. pose proof (tab1_frame inp g) as F.
  destruct (date_bounds (data g)); [congruence|].
  destruct (Qltb 0 (total_procedures g)); [|congruence].
  destruct F as [g'' [Hg [Hd [_ Hv]]]].
  assert (g'' = g') by congruence. subst g''. now split.
Qed.

Lemma tab2_keeps inp g g' :
  tab2 inp g = inr g' ->
  data g' = data g /\ tab3_c (page g') = tab3_c (page g).
Proof.
  intro H. pose proof (tab2_frame inp g) as F.
  destruct (date_bounds (data g)); [congruence|].
  destruct F as [g'' [Hg [Hd Hv]]].
  assert (g'' = g') by congruence. subst g''. now split.
Qed.

Lemma tab4_keeps inp g g' :
  tab4 inp g = inr g' ->
  data g' = data g /\ tab3_c (page g') = tab3_c (page g).
Proof.
  intro H. pose proof (tab4_frame inp g) as F.
  destruct (date_bounds (data g)); [congruence|].
  destruct F as [g'' [Hg [Hd [_ Hv]]]].
  assert (g'' = g') by congruence. subst g''. now split.
Qed.

Lemma prelude_starts loaded g :
  prelude loaded = inr g ->
  data g = fst loaded /\ tab3_c (page g) = [].
Proof.
  destruct loaded as [d t]. unfold prelude.
  destruct d as [|r d]; [discriminate|].
  intro H. inversion H. now split.
Qed.

(** Whenever a run gets to the end of tab 3, what tab 3 shows is
    [timing_view] of all the loaded records. *)
Lemma script_to_tab3_view loaded inp g :
  script_to_tab3 loaded inp = inr g ->
  tab3_c (page g) = timing_view (fst loaded).
Proof.
  unfold script_to_tab3. intro H.
  destruct (prelude loaded) as [e|g0] eqn:H0; [discriminate|].
  cbn [bind] in H.
  destruct (tab1 inp g0) as [e|g1] eqn:H1; [discriminate|].
  cbn [bind] in H.
  destruct (tab2 inp g1) as [e|g2] eqn:H2; [discriminate|].
  cbn [bind] in H.
  destruct (prelude_starts _ _ H0) as [Hd0 Hv0].
  destruct (tab1_keeps _ _ _ H1) as [Hd1 Hv1].
  destruct (tab2_keeps _ _ _ H2) as [Hd2 Hv2].
  destruct (tab3_frame g2) as [g3 [H3 [_ [_ Hv3]]]].
  assert (g3 = g) by congruence. subst g3.
  rewrite Hv3, Hv2, Hv1, Hv0, Hd2, Hd1, Hd0. reflexivity.
Qed.

(** A whole run is the run to the end of tab 3 followed by tab 4, which
    leaves the page of tab 3 alone. *)
Lemma script_through_tab3 loaded inp g :
  script loaded inp = inr g ->
  exists g3, script_to_tab3 loaded inp = inr g3 /\
             tab3_c (page g) = tab3_c (page g3).
Proof.
  unfold script, script_to_tab3. intro H.
  destruct (prelude loaded) as [e|g0]; [discriminate|]. cbn [bind] in *.
  destruct (tab1 inp g0) as [e|g1]; [discriminate|]. cbn [bind] in *.
  destruct (tab2 inp g1) as [e|g2]; [discriminate|]. cbn [bind] in *.
  destruct (tab3 g2) as [e|g3]; [discriminate|]. cbn [bind] in *.
  exists g3. split; [reflexivity|].
  now destruct (tab4_keeps _ _ _ H).
Qed.



(** The same holds of two whole runs that complete. *)
Lemma completed_runs_agree_on_tab3 loaded inp1 inp2 g1 g2 :
  script loaded inp1 = inr g1 ->
  script loaded inp2 = inr g2 ->
  tab3_c (page g1) = tab3_c (page g2) /\
  tab3_c (page g1) = timing_view (fst loaded).
Proof.
  intros H1 H2.
  destruct (script_through_tab3 _ _ _ H1) as [a [Ha ->]].
  destruct (script_through_tab3 _ _ _ H2) as [b [Hb ->]].
  rewrite (script_to_tab3_view _ _ _ Ha), (script_to_tab3_view _ _ _ Hb).
  now split.
Qed.

(** On the sample records, two runs with different ranges and selections
    differ in tab 1 and agree on tab 3, which covers the record whose
    appointment date is NaT as well. *)
Lemma tab3_sample :
  fmap (fun g => List.length (filtered_data g))
       (script (Sample.records, 100) Sample.inputs) = inr 3%nat /\
  fmap (fun g => List.length (filtered_data g))
       (script (Sample.records, 100) Sample.inputs') = inr 1%nat /\
  fmap (fun g => nth_error (tab3_c (page g)) 0)
       (script (Sample.records, 100) Sample.inputs')
  = inr (Some (PieView [Some "<10 mins"; Some "1-5h"; None])).
Proof. repeat split; vm_compute; reflexivity. Qed.

(* ================================================================== *)
(** * Further properties of the code *)

(** ** Sorting and rounding *)

Lemma insert_by_sorted {A} (le : A -> A -> bool) :
  (forall a b, le a b = true \/ le b a = true) ->
  forall x l,
    Sorted (fun a b => le a b = true) l ->
    Sorted (fun a b => le a b = true) (insert_by le x l).
Proof.
  intros Htot x l. induction l as [|y l IH]; intro Hs; simpl.
  - repeat constructor.
  - destruct (le y x) eqn:E.
    + inversion Hs as [|? ? Hs' Hhd]; subst. constructor; [now apply IH|].
      destruct l as [|z l]; simpl.
      * constructor. exact E.
      * destruct (le z x); constructor; [|exact E].
        now inversion Hhd.
    + constructor; [exact Hs|]. constructor.
      destruct (Htot x y) as [H|H]; [exact H | congruence].
Qed.

Lemma sort_by_sorted {A} (le : A -> A -> bool) :
  (forall a b, le a b = true \/ le b a = true) ->
  forall l, Sorted (fun a b => le a b = true) (sort_by le l).
Proof.
  intros Htot l. unfold sort_by.
  assert (H : forall acc, Sorted (fun a b => le a b = true) acc ->
            Sorted (fun a b => le a b = true)
                   (fold_left (fun acc x => insert_by le x acc) l acc)).
  { induction l as [|x l IH]; intros acc Hacc; simpl; [exact Hacc|].
    apply IH, insert_by_sorted; assumption. }
  apply H. constructor.
Qed.

Lemma Qle_bool_total x y : Qle_bool x y = true \/ Qle_bool y x = true.
Proof.
  destruct (Qlt_le_dec y x) as [H|H].
  - right. apply Qle_bool_iff, Qlt_le_weak, H.
  - left. apply Qle_bool_iff, H.
Qed.

Lemma Nat_leb_total x y : (x <=? y)%nat = true \/ (y <=? x)%nat = true.
Proof. rewrite !Nat.leb_le. lia. Qed.

(** [rint] stays between integer bounds of its argument. *)
Lemma rint_bounds (a b : Z) (x : Q) :
  (inject_Z a <= x)%Q -> (x <= inject_Z b)%Q -> (a <= rint x <= b)%Z.
Proof.
  intros Ha Hb. unfold rint.
  assert (Hfa : (a <= Qfloor x)%Z)
    by (rewrite <- (Qfloor_Z a); now apply Qfloor_resp_le).
  assert (Hfb : (Qfloor x <= b)%Z)
    by (rewrite <- (Qfloor_Z b); now apply Qfloor_resp_le).
  assert (Hup : (0 < x - inject_Z (Qfloor x))%Q -> (Qfloor x + 1 <= b)%Z).
  { intro Hpos. destruct (Z.eq_dec (Qfloor x) b) as [Heq|Hne]; [|lia].
    rewrite Heq in Hpos. lra. }
  destruct (Qcompare_spec (x - inject_Z (Qfloor x)) (1 # 2)) as [He|Hl|Hg].
  - destruct (Z.even (Qfloor x)); [lia|].
    split; [lia|]. apply Hup. rewrite He. reflexivity.
  - lia.
  - split; [lia|]. apply Hup. lra.
Qed.

Lemma round1_bounds (x : Q) :
  (0 <= x)%Q -> (x <= 100)%Q -> (0 <= round1 x)%Q /\ (round1 x <= 100)%Q.
Proof.
  intros H0 H1. unfold round1.
  destruct (rint_bounds 0 1000 (x * 10)) as [Hl Hu].
  - change (inject_Z 0) with 0%Q. lra.
  - change (inject_Z 1000) with 1000%Q. lra.
  - rewrite Zle_Qle in Hl, Hu.
    change (inject_Z 0) with 0%Q in Hl.
    change (inject_Z 1000) with 1000%Q in Hu.
    split.
    + apply Qle_shift_div_l; [reflexivity | lra].
    + apply Qle_shift_div_r; [reflexivity | lra].
Qed.

Lemma Qof_nat_nonneg n : (0 <= Qof_nat n)%Q.
Proof.
  unfold Qof_nat. change 0%Q with (inject_Z 0). rewrite <- Zle_Qle. lia.
Qed.

Lemma Qof_nat_le n m : (n <= m)%nat -> (Qof_nat n <= Qof_nat m)%Q.
Proof. intro H. unfold Qof_nat. rewrite <- Zle_Qle. lia. Qed.

Lemma Qof_nat_pos n : (0 < n)%nat -> (0 < Qof_nat n)%Q.
Proof.
  intro H. unfold Qof_nat. change 0%Q with (inject_Z 0).
  rewrite <- Zlt_Qlt. lia.
Qed.

(** A share [c / t * 100] of a whole, rounded to one decimal, lies
    between 0 and 100. *)
Lemma local_rate_bounds (c t : nat) :
  (c <= t)%nat -> (0 < t)%nat ->
  (0 <= round1 (Qof_nat c / Qof_nat t * 100))%Q /\
  (round1 (Qof_nat c / Qof_nat t * 100) <= 100)%Q.
Proof.
  intros Hct Ht.
  pose proof (Qof_nat_pos t Ht) as Htp.
  pose proof (Qof_nat_nonneg c) as Hc.
  pose proof (Qof_nat_le c t Hct) as Hle.
  assert (H0 : (0 <= Qof_nat c / Qof_nat t)%Q)
    by (apply Qle_shift_div_l; [exact Htp | lra]).
  assert (H1 : (Qof_nat c / Qof_nat t <= 1)%Q)
    by (apply Qle_shift_div_r; [exact Htp | lra]).
  apply round1_bounds; lra.
Qed.

(* ================================================================== *)
(** ** The classifier, further *)

Lemma upper_lower_ascii c :
  PyStr.upper_ascii (PyStr.lower_ascii c) = PyStr.upper_ascii c.
Proof.
  destruct c as [b0 b1 b2 b3 b4 b5 b6 b7].
  destruct b0, b1, b2, b3, b4, b5, b6, b7; reflexivity.
Qed.

Lemma upper_upper_ascii c :
  PyStr.upper_ascii (PyStr.upper_ascii c) = PyStr.upper_ascii c.
Proof.
  destruct c as [b0 b1 b2 b3 b4 b5 b6 b7].
  destruct b0, b1, b2, b3, b4, b5, b6, b7; reflexivity.
Qed.

Lemma upper_lower s : PyStr.upper (PyStr.lower s) = PyStr.upper s.
Proof.
  induction s as [|c s IH]; simpl; [reflexivity|].
  now rewrite upper_lower_ascii, IH.
Qed.

Lemma upper_upper s : PyStr.upper (PyStr.upper s) = PyStr.upper s.
Proof.
  induction s as [|c s IH]; simpl; [reflexivity|].
  now rewrite upper_upper_ascii, IH.
Qed.

(** X1: the category does not depend on the case of the letters: the
    lower-cased and the upper-cased text get the category of the text. *)
Theorem categorize_procedure_ignores_case :
  forall s,
    categorize_procedure (PyStr.lower s) = categorize_procedure s /\
    categorize_procedure (PyStr.upper s) = categorize_procedure s.
Proof.
  intro s. unfold categorize_procedure.
  now rewrite upper_lower, upper_upper.
Qed.

(** X2: the result is 'OTHER' or one of eleven category names; 'PET/CT',
    although a key of the table, is not among the possible results. *)
Theorem categorize_procedure_range :
  forall s,
    In (categorize_procedure s)
       ["OPEN MRI"; "US"; "CT"; "SLEEP STUDY"; "MRI"; "XRAY"; "MAMMOGRAM";
        "NCS"; "BONE DENSITY"; "NUCLEAR MEDICINE"; "CARDIAC PET"; "OTHER"].
Proof.
  intro s. pose proof (PET_CT_is_never_returned s) as Hpet.
  unfold categorize_procedure in *.
  destruct (first_match_spec categories (PyStr.upper s))
    as [[Ho _] | [before [c [ks [after [Hc [Hf _]]]]]]].
  - rewrite Ho. simpl. tauto.
  - rewrite Hf in *.
    assert (Hin : In c (map fst categories)).
    { rewrite Hc, map_app. apply in_or_app. right. now left. }
    simpl in Hin. simpl. intuition congruence.
Qed.

Lemma keyword_self_classification_witness :
  In ("MRI", ["MRI"; "MAGNETIC"]) categories /\
  In "MAGNETIC" ["MRI"; "MAGNETIC"] /\
  categorize_procedure "MAGNETIC" = "MRI" /\
  categorize_procedure (PyStr.lower "MAGNETIC") = "MRI".
Proof.
  assert (Hc : In ("MRI", ["MRI"; "MAGNETIC"]) categories)
    by (unfold categories; simpl; tauto).
  assert (Hk : In "MAGNETIC" ["MRI"; "MAGNETIC"]) by (simpl; tauto).
  split; [exact Hc|]. split; [exact Hk|].
  apply (keyword_self_classification "MRI" ["MRI"; "MAGNETIC"] "MAGNETIC");
    [exact Hc | exact Hk | discriminate | discriminate | discriminate].
Defined.

(* ================================================================== *)
(** ** Runs of the script *)

Lemma dropna_In {A} (xs : list (option A)) (x : A) :
  In x (dropna xs) <-> In (Some x) xs.
Proof.
  induction xs as [|[y|] xs IH]; simpl.
  - tauto.
  - rewrite IH. split; intros [H|H]; auto; left; congruence.
  - rewrite IH. split; [auto | intros [H|H]; [discriminate | exact H]].
Qed.

Lemma date_bounds_cases d :
  (date_bounds d = inr tt /\
   exists r, In r d /\ Appointment_Date r <> None)
  \/
  (date_bounds d = inl DateInputValueError /\
   forall r, In r d -> Appointment_Date r = None).
Proof.
  unfold date_bounds.
  destruct (dropna (map Appointment_Date d)) as [|t ts] eqn:E.
  - right. split; [reflexivity|]. intros r Hr.
    destruct (Appointment_Date r) as [t|] eqn:Et; [|reflexivity].
    assert (In t (dropna (map Appointment_Date d))) as Hin
      by (apply dropna_In; rewrite <- Et; now apply in_map).
    rewrite E in Hin. contradiction.
  - left. split; [reflexivity|].
    assert (In t (dropna (map Appointment_Date d))) as Hin
      by (rewrite E; now left).
    apply dropna_In, in_map_iff in Hin. destruct Hin as [r [Hr Hin]].
    exists r. split; [exact Hin | congruence].
Qed.

(** How a run ends, and what a completed run leaves in the names. *)
Lemma script_cases loaded inp :
  match fst loaded with
  | [] => script loaded inp = inl StopException
  | _ =>
      match date_bounds (fst loaded) with
      | inl e => script loaded inp = inl e
      | inr _ =>
          if Qltb 0 (snd loaded)
          then exists g,
                 script loaded inp = inr g /\
                 data g = fst loaded /\
                 filtered_data g
                 = filter (mask (fst (tab4_dates inp)) (snd (tab4_dates inp)))
                          (fst loaded)
          else script loaded inp
               = inl (AttributeError "'int' object has no attribute 'round'")
      end
  end.
Proof.
  destruct loaded as [d t]. cbn [fst snd].
  destruct d as [|r d]; [reflexivity|].
  unfold script.
  assert (Hp : exists g0, prelude (r :: d, t) = inr g0 /\
                          data g0 = r :: d /\ total_procedures g0 = t)
    by (eexists; split; [reflexivity | repeat split]).
  destruct Hp as [g0 [-> [Hd0 Ht0]]]. cbn [bind].
  pose proof (tab1_frame inp g0) as H1. rewrite Hd0, Ht0 in H1.
  destruct (date_bounds (r :: d)) as [e|u] eqn:Hb.
  { rewrite H1. reflexivity. }
  destruct (Qltb 0 t).
  2: { rewrite H1. reflexivity. }
  destruct H1 as [g1 [-> [Hd1 _]]]. cbn [bind].
  pose proof (tab2_frame inp g1) as H2. rewrite Hd1, Hb in H2.
  destruct H2 as [g2 [-> [Hd2 _]]]. cbn [bind].
  destruct (tab3_frame g2) as [g3 [-> [Hd3 _]]]. cbn [bind].
  pose proof (tab4_frame inp g3) as H4. rewrite Hd3, Hd2, Hb in H4.
  destruct H4 as [g4 [H4 [Hd4 _]]].
  exists g4. split; [exact H4|]. split; [exact Hd4|].
  rewrite (tab4_filtered_data _ _ _ H4), Hd3, Hd2. reflexivity.
Qed.

(** X5: a run completes only if at least one loaded record has a parsed
    appointment date and the clinic-wide total is positive. *)
Theorem script_completes_only_if :
  forall (loaded : list Row * Q) (inp : Inputs) (g : Globals),
    script loaded inp = inr g ->
    (exists r, In r (fst loaded) /\ Appointment_Date r <> None) /\
    (0 < snd loaded)%Q.
Proof.
  intros loaded inp g Hg. pose proof (script_cases loaded inp) as H.
  destruct (fst loaded) as [|r d] eqn:Hd; [congruence|].
  destruct (date_bounds_cases (r :: d)) as [[Hb [r' Hr']] | [Hb _]];
    rewrite Hb in H; [|congruence].
  destruct (Qltb 0 (snd loaded)) eqn:Ht; [|congruence].
  split; [now exists r' | now apply Qltb_lt].
Qed.

Lemma script_completes_only_if_witness :
  script (Sample.records, 100) Sample.inputs' = inr Sample.after_script' /\
  (exists r, In r (fst (Sample.records, 100%Q)) /\
             Appointment_Date r <> None) /\
  (0 < snd (Sample.records, 100%Q))%Q.
Proof.
  assert (H : script (Sample.records, 100) Sample.inputs'
              = inr Sample.after_script') by (vm_compute; reflexivity).
  split; [exact H|].
  exact (script_completes_only_if (Sample.records, 100) Sample.inputs'
           Sample.after_script' H).
Defined.

(** X7: no tab rebinds [data]: after a completed run it still holds the
    loaded records, and [filtered_data] holds the records of tab 4's date
    range. *)
Theorem script_keeps_data :
  forall (loaded : list Row * Q) (inp : Inputs) (g : Globals),
    script loaded inp = inr g ->
    data g = fst loaded /\
    filtered_data g
    = filter (mask (fst (tab4_dates inp)) (snd (tab4_dates inp)))
             (fst loaded).
Proof.
  intros loaded inp g Hg. pose proof (script_cases loaded inp) as H.
  destruct (fst loaded) as [|r d] eqn:Hd; [congruence|].
  destruct (date_bounds (r :: d)); [congruence|].
  destruct (Qltb 0 (snd loaded)); [|congruence].
  destruct H as [g' [Hg' [H1 H2]]].
  assert (g' = g) by congruence. subst g'. now split.
Qed.

Lemma script_keeps_data_witness :
  script (Sample.records, 100) Sample.inputs' = inr Sample.after_script' /\
  data Sample.after_script' = fst (Sample.records, 100%Q) /\
  filtered_data Sample.after_script'
  = filter (mask (fst (tab4_dates Sample.inputs'))
                 (snd (tab4_dates Sample.inputs')))
           (fst (Sample.records, 100%Q)).
Proof.
  assert (H : script (Sample.records, 100) Sample.inputs'
              = inr Sample.after_script') by (vm_compute; reflexivity).
  split; [exact H|].
  exact (script_keeps_data (Sample.records, 100) Sample.inputs'
           Sample.after_script' H).
Defined.

(* ================================================================== *)
(** ** The loader, further *)

(** X8: when the file does not exist, or reading the cancellation sheet
    raises, [load_data] returns no record, a total of 0 and exactly one
    error message, and the script run on that result stops at
    [st.stop()] before any tab. *)
Theorem load_data_primary_failure :
  forall (to_datetime : cell -> option Z) (to_numeric : cell -> option Q)
         (src : Source),
    workbook src = None \/
    (exists wb e, workbook src = Some wb /\ cancel_sheet wb = inl e) ->
    fst (load_data to_datetime to_numeric src) = ([], 0) /\
    (exists msg, snd (load_data to_datetime to_numeric src) = [StError msg]) /\
    forall inp,
      script (fst (load_data to_datetime to_numeric src)) inp
      = inl StopException.
Proof.
  intros td tn src H. unfold load_data.
  destruct H as [-> | [wb [e [-> ->]]]];
    (split; [reflexivity|]); (split; [eexists; reflexivity | reflexivity]).
Qed.

Lemma load_data_primary_failure_witness :
  (workbook {| file_path := "dashboard_data.xlsx"; workbook := None |} = None \/
   exists wb e,
     workbook {| file_path := "dashboard_data.xlsx"; workbook := None |}
     = Some wb /\ cancel_sheet wb = inl e) /\
  fst (load_data Sample.to_datetime Sample.to_numeric
         {| file_path := "dashboard_data.xlsx"; workbook := None |})
  = ([], 0).
Proof.
  split.
  - left. reflexivity.
  - apply (load_data_primary_failure Sample.to_datetime Sample.to_numeric
             {| file_path := "dashboard_data.xlsx"; workbook := None |}).
    left. reflexivity.
Defined.

Lemma load_data_categories to_datetime to_numeric src :
  Forall (fun r => Procedure_Category r = categorize_procedure (Type_ r))
         (fst (fst (load_data to_datetime to_numeric src))).
Proof.
  unfold load_data. destruct (workbook src) as [wb|]; [|constructor].
  destruct (cancel_sheet wb) as [e|raw]; [constructor|].
  assert (H : Forall (fun r => Procedure_Category r
                               = categorize_procedure (Type_ r))
                     (map (normalize to_datetime) raw))
    by (apply Forall_forall; intros r Hr; apply in_map_iff in Hr;
        destruct Hr as [x [<- _]]; reflexivity).
  destruct (fmap (total_of_grid to_numeric) (seen_sheet wb)); exact H.
Qed.

(** X9: in every completed run on what [load_data] returned, each record
    of [data] and of the working set [filtered_data] carries the category
    that [categorize_procedure] gives its type. *)
Theorem category_follows_type :
  forall (to_datetime : cell -> option Z) (to_numeric : cell -> option Q)
         (src : Source) (inp : Inputs) (g : Globals),
    script (fst (load_data to_datetime to_numeric src)) inp = inr g ->
    Forall (fun r => Procedure_Category r = categorize_procedure (Type_ r))
           (data g) /\
    Forall (fun r => Procedure_Category r = categorize_procedure (Type_ r))
           (filtered_data g).
Proof.
  intros td tn src inp g Hg.
  pose proof (load_data_categories td tn src) as Hinv.
  pose proof (script_cases (fst (load_data td tn src)) inp) as H.
  destruct (fst (fst (load_data td tn src))) as [|r d] eqn:Hd; [congruence|].
  destruct (date_bounds (r :: d)); [congruence|].
  destruct (Qltb 0 (snd (fst (load_data td tn src)))); [|congruence].
  destruct H as [g' [Hg' [H1 H2]]].
  assert (g' = g) by congruence. subst g'.
  rewrite H1, H2. split; [exact Hinv|].
  apply Forall_forall. intros x Hx. apply filter_In in Hx.
  rewrite Forall_forall in Hinv. apply Hinv. tauto.
Qed.

Lemma category_follows_type_witness :
  let src := {| file_path := "dashboard_data.xlsx";
                workbook := Some {| cancel_sheet := inr Sample.raw_rows;
                                    seen_sheet := inr Sample.grid |} |} in
  exists g,
    script (fst (load_data Sample.to_datetime Sample.to_numeric src))
           Sample.inputs = inr g /\
    Forall (fun r => Procedure_Category r = categorize_procedure (Type_ r))
           (data g).
Proof.
  intro src.
  destruct (script (fst (load_data Sample.to_datetime Sample.to_numeric src))
                   Sample.inputs) as [e|g] eqn:Hg.
  - exfalso. vm_compute in Hg. discriminate.
  - exists g. split; [reflexivity|].
    exact (proj1 (category_follows_type Sample.to_datetime Sample.to_numeric
                    src Sample.inputs g Hg)).
Defined.

(** *** The total of the 'Patients Seen Report' grid *)

Lemma Qsum_zero (xs : list Q) :
  (forall x, In x xs -> x == 0)%Q -> (Qsum xs == 0)%Q.
Proof.
  induction xs as [|x xs IH]; intro H; simpl; [reflexivity|].
  rewrite (H x (or_introl eq_refl)), IH; [reflexivity|].
  intros y Hy. apply H. now right.
Qed.

Lemma Qsum_map_ext {A} (f g : A -> Q) (l : list A) :
  (forall x, In x l -> f x == g x)%Q ->
  (Qsum (map f l) == Qsum (map g l))%Q.
Proof.
  induction l as [|x l IH]; intro H; simpl; [reflexivity|].
  rewrite (H x (or_introl eq_refl)), IH; [reflexivity|].
  intros y Hy. apply H. now right.
Qed.

Lemma Qsum_map_filter {A} (f : A -> Q) (p : A -> bool) (l : list A) :
  (forall x, In x l -> p x = false -> f x == 0)%Q ->
  (Qsum (map f (filter p l)) == Qsum (map f l))%Q.
Proof.
  induction l as [|x l IH]; intro H; simpl; [reflexivity|].
  assert (IH' : (Qsum (map f (filter p l)) == Qsum (map f l))%Q)
    by (apply IH; intros y Hy; apply H; now right).
  destruct (p x) eqn:E; simpl.
  - now rewrite IH'.
  - rewrite IH', (H x (or_introl eq_refl) E). lra.
Qed.

Section Grid_total.

Variable to_numeric : cell -> option Q.
Hypothesis to_numeric_Blank : to_numeric Blank = None.

Let nz := numeric_or_zero to_numeric.

Lemma empty_row_cell w r j :
  row_is_empty w r = true -> (j < w)%nat -> nth j r Blank = Blank.
Proof.
  unfold row_is_empty. rewrite forallb_forall. intros H Hj.
  assert (Hin : In j (seq 0 w)) by (apply in_seq; lia).
  specialize (H j Hin). destruct (nth j r Blank); try discriminate.
  reflexivity.
Qed.

Lemma column_filter_empty w j rs :
  (j < w)%nat ->
  forallb isna (column j (filter (fun r => negb (row_is_empty w r)) rs))
  = forallb isna (column j rs).
Proof.
  intro Hj. unfold column. induction rs as [|r rs IH]; simpl; [reflexivity|].
  destruct (row_is_empty w r) eqn:E; simpl.
  - rewrite (empty_row_cell w r j E Hj). simpl. exact IH.
  - now rewrite IH.
Qed.

Lemma column_sum_filter_empty w j rs :
  (j < w)%nat ->
  (Qsum (map nz (column j (filter (fun r => negb (row_is_empty w r)) rs)))
   == Qsum (map nz (column j rs)))%Q.
Proof.
  intro Hj. unfold column. induction rs as [|r rs IH]; simpl; [reflexivity|].
  destruct (row_is_empty w r) eqn:E; simpl.
  - rewrite (empty_row_cell w r j E Hj), IH.
    unfold nz, numeric_or_zero. rewrite to_numeric_Blank. lra.
  - now rewrite IH.
Qed.

Lemma empty_column_sum j rs :
  forallb isna (column j rs) = true ->
  (Qsum (map nz (column j rs)) == 0)%Q.
Proof.
  intro H. apply Qsum_zero. intros x Hx.
  apply in_map_iff in Hx. destruct Hx as [c [<- Hc]].
  rewrite forallb_forall in H. specialize (H c Hc).
  destruct c; try discriminate.
  unfold nz, numeric_or_zero. rewrite to_numeric_Blank. reflexivity.
Qed.

(** Dropping the empty rows changes neither which columns are empty nor
    any column sum: the total is the sum, over all rows, of the non-empty
    columns but the first of them. *)
Lemma total_of_grid_all_rows (g : Grid) :
  (total_of_grid to_numeric g
   == Qsum (map (fun j => Qsum (map nz (column j (rows g))))
                (tl (filter (fun j => negb (forallb isna (column j (rows g))))
                            (seq 0 (width g))))))%Q.
Proof.
  unfold total_of_grid. fold (row_is_empty (width g)).
  set (rs := filter (fun r => negb (row_is_empty (width g) r)) (rows g)).
  rewrite (filter_ext_in
             (fun j => negb (forallb isna (column j rs)))
             (fun j => negb (forallb isna (column j (rows g))))).
  - apply Qsum_map_ext. intros j Hj.
    apply column_sum_filter_empty.
    assert (In j (seq 0 (width g))) as Hin.
    { destruct (filter _ (seq 0 (width g))) as [|k l] eqn:E; [contradiction|].
      assert (In j (filter (fun j => negb (forallb isna (column j (rows g))))
                           (seq 0 (width g)))) as Hf
        by (rewrite E; now right).
      apply filter_In in Hf. tauto. }
    apply in_seq in Hin. lia.
  - intros j Hj. apply in_seq in Hj. unfold rs.
    rewrite column_filter_empty by lia. reflexivity.
Qed.

(** X10: when the label column (the first one) has at least one cell,
    the total is the sum of [to_numeric] over every cell of the other
    columns, unparsable and empty cells counting 0; the empty rows and
    columns that the loader drops do not change it. *)
Theorem total_of_grid_with_labels :
  forall g : Grid,
    (exists r, In r (rows g) /\ nth 0 r Blank <> Blank) ->
    (total_of_grid to_numeric g
     == Qsum (map (fun j => Qsum (map (numeric_or_zero to_numeric)
                                      (column j (rows g))))
                  (seq 1 (width g - 1))))%Q.
Proof.
  intros g [r [Hr Hne]]. rewrite total_of_grid_all_rows. fold nz.
  destruct (width g) as [|w]; [reflexivity|].
  simpl seq. simpl filter.
  assert (H0 : forallb isna (column 0 (rows g)) = false).
  { destruct (forallb isna (column 0 (rows g))) eqn:E; [|reflexivity].
    rewrite forallb_forall in E.
    assert (isna (nth 0 r Blank) = true) as Hb
      by (apply E; unfold column; apply in_map_iff; now exists r).
    destruct (nth 0 r Blank); try discriminate. congruence. }
  rewrite H0. simpl tl. rewrite Nat.sub_0_r.
  apply Qsum_map_filter. intros j _ Hj.
  apply empty_column_sum. now apply negb_false_iff.
Qed.

(** X11: when the first column is entirely empty and the second is not,
    the second column takes the place of the label column: its numbers
    are not counted. *)
Theorem total_of_grid_without_labels :
  forall g : Grid,
    (forall r, In r (rows g) -> nth 0 r Blank = Blank) ->
    (exists r, In r (rows g) /\ nth 1 r Blank <> Blank) ->
    (2 <= width g)%nat ->
    (total_of_grid to_numeric g
     == Qsum (map (fun j => Qsum (map (numeric_or_zero to_numeric)
                                      (column j (rows g))))
                  (seq 2 (width g - 2))))%Q.
Proof.
  intros g Hblank [r [Hr Hne]] Hw. rewrite total_of_grid_all_rows. fold nz.
  destruct (width g) as [|[|w]]; try lia.
  simpl seq. simpl filter.
  assert (H0 : forallb isna (column 0 (rows g)) = true).
  { apply forallb_forall. intros c Hc. unfold column in Hc.
    apply in_map_iff in Hc. destruct Hc as [r' [<- Hr']].
    now rewrite (Hblank r' Hr'). }
  assert (H1 : forallb isna (column 1 (rows g)) = false).
  { destruct (forallb isna (column 1 (rows g))) eqn:E; [|reflexivity].
    rewrite forallb_forall in E.
    assert (isna (nth 1 r Blank) = true) as Hb
      by (apply E; unfold column; apply in_map_iff; now exists r).
    destruct (nth 1 r Blank); try discriminate. congruence. }
  rewrite H0, H1. simpl tl. rewrite Nat.sub_0_r.
  apply Qsum_map_filter. intros j _ Hj.
  apply empty_column_sum. now apply negb_false_iff.
Qed.

End Grid_total.

Lemma total_of_grid_with_labels_witness :
  Sample.to_numeric Blank = None /\
  (exists r, In r (rows Sample.grid) /\ nth 0 r Blank <> Blank) /\
  (total_of_grid Sample.to_numeric Sample.grid
   == Qsum (map (fun j => Qsum (map (numeric_or_zero Sample.to_numeric)
                                    (column j (rows Sample.grid))))
                (seq 1 (width Sample.grid - 1))))%Q.
Proof.
  assert (H : exists r, In r (rows Sample.grid) /\ nth 0 r Blank <> Blank).
  { exists [Str "MRI"; Num 40; Num 2]. split; [simpl; tauto | discriminate]. }
  split; [reflexivity|]. split; [exact H|].
  exact (total_of_grid_with_labels Sample.to_numeric eq_refl Sample.grid H).
Defined.

Lemma total_of_grid_without_labels_witness :
  let g := {| width := 3;
              rows := [ [Blank; Num 40; Num 2]; [Blank; Num 10; Num 58] ] |} in
  Sample.to_numeric Blank = None /\
  (total_of_grid Sample.to_numeric g == 60)%Q /\
  (total_of_grid Sample.to_numeric g
   == Qsum (map (fun j => Qsum (map (numeric_or_zero Sample.to_numeric)
                                    (column j (rows g))))
                (seq 2 (width g - 2))))%Q.
Proof.
  intro g. split; [reflexivity|]. split; [vm_compute; reflexivity|].
  apply (total_of_grid_without_labels Sample.to_numeric eq_refl g).
  - intros r [<-|[<-|[]]]; reflexivity.
  - exists [Blank; Num 40; Num 2]. split; [simpl; tauto | discriminate].
  - simpl. lia.
Defined.

(* ================================================================== *)
(** ** The date filter, further *)

(** X12: widening the date range keeps every record of the narrower
    working set, and a range whose end is before its start selects
    nothing. *)
Theorem mask_range_monotone :
  forall (data : list Row) (s e s' e' : Z),
    ((s' <= s)%Z -> (e <= e')%Z ->
     incl (filter (mask s e) data) (filter (mask s' e') data)) /\
    ((e < s)%Z -> filter (mask s e) data = []).
Proof.
  intros data s e s' e'. split.
  - intros Hs He r Hr. apply filter_In in Hr. destruct Hr as [Hin Hm].
    apply filter_In. split; [exact Hin|].
    apply mask_true in Hm. destruct Hm as [t [Ht Hr]].
    apply mask_true. exists t. split; [exact Ht | lia].
  - intro Hinv. induction data as [|r d IH]; simpl; [reflexivity|].
    destruct (mask s e r) eqn:E; [|exact IH].
    apply mask_true in E. destruct E as [t [_ Ht]]. lia.
Qed.

(* ================================================================== *)
(** ** Tab 1, further *)

Lemma proc_metrics_categories filtered_data total pm :
  proc_metrics filtered_data total = inr pm ->
  Permutation (map pm_Procedure_Category pm)
              (groupby_keys (map Procedure_Category filtered_data)) /\
  Forall (fun m => pm_Cancellation_Rate m
                   = round1 (Qof_nat (pm_Cancelled m) / total * 100)) pm /\
  (0 < total)%Q.
Proof.
  intro H.
  destruct (Qltb 0 total) eqn:Hpos.
  2: { unfold proc_metrics, cancellation_rate_column in H.
       rewrite Hpos in H. discriminate. }
  apply Qltb_lt in Hpos.
  destruct (proc_metrics_positive_total filtered_data total Hpos)
    as [pm' [Hpm' [_ Hrates]]].
  assert (pm' = pm) by congruence. subst pm'.
  split; [|split; assumption].
  unfold proc_metrics, cancellation_rate_column in H.
  apply Qltb_lt in Hpos. rewrite Hpos in H. cbn [bind ret] in H.
  inversion H as [Heq]. clear H Heq.
  eapply Permutation_trans; [apply Permutation_map, sort_by_perm|].
  rewrite map_map.
  unfold cancelled_by_category. rewrite !map_map. cbn [snd].
  set (ks := groupby_keys (map Procedure_Category filtered_data)).
  match goal with
  | |- Permutation ?l ks => assert (Heq : l = ks); [|rewrite Heq; reflexivity]
  end.
  clear. induction ks as [|k ks IH]; simpl; [reflexivity | now rewrite IH].
Qed.

(** X13: when [proc_metrics] is produced it has exactly one row for each
    category that occurs in the working set and none for any other. *)
Theorem proc_metrics_one_row_per_category :
  forall (filtered_data : list Row) (total : Q) (pm : list ProcMetric),
    proc_metrics filtered_data total = inr pm ->
    NoDup (map pm_Procedure_Category pm) /\
    forall c, In c (map pm_Procedure_Category pm) <->
              exists r, In r filtered_data /\ Procedure_Category r = c.
Proof.
  intros fd total pm H.
  destruct (proc_metrics_categories fd total pm H) as [Hperm _].
  split.
  - eapply Permutation_NoDup;
      [apply Permutation_sym, Hperm | apply groupby_keys_NoDup].
  - intro c. split.
    + intro Hc. apply (Permutation_in _ Hperm) in Hc.
      apply groupby_keys_In, in_map_iff in Hc.
      destruct Hc as [r [Hr Hin]]. now exists r.
    + intros [r [Hin Hr]].
      apply (Permutation_in _ (Permutation_sym Hperm)).
      apply groupby_keys_In, in_map_iff. now exists r.
Qed.

Lemma proc_metrics_one_row_per_category_witness :
  exists pm,
    proc_metrics Sample.records 100 = inr pm /\
    NoDup (map pm_Procedure_Category pm).
Proof.
  destruct (proc_metrics Sample.records 100) as [e|pm] eqn:H.
  - exfalso. vm_compute in H. discriminate.
  - exists pm. split; [reflexivity|].
    exact (proj1 (proc_metrics_one_row_per_category
                    Sample.records 100 pm H)).
Defined.

(** X14: when [proc_metrics] is produced its rows are in descending order
    of rate and no rate is negative. *)
Theorem proc_metrics_sorted :
  forall (filtered_data : list Row) (total : Q) (pm : list ProcMetric),
    proc_metrics filtered_data total = inr pm ->
    Sorted (fun a b => (pm_Cancellation_Rate b <= pm_Cancellation_Rate a)%Q)
           pm /\
    Forall (fun m => (0 <= pm_Cancellation_Rate m)%Q) pm.
Proof.
  intros fd total pm H.
  destruct (proc_metrics_categories fd total pm H) as [_ [Hrates Hpos]].
  split.
  - unfold proc_metrics in H.
    destruct (cancellation_rate_column _ _) as [e|rates]; [discriminate|].
    cbn [bind ret] in H. inversion H as [Heq].
    assert (Hs := sort_by_sorted by_rate_desc
                    (fun a b => Qle_bool_total _ _)).
    specialize (Hs (map (fun '(k, c, r) =>
                           {| pm_Procedure_Category := k;
                              pm_Cancelled := c;
                              pm_Cancellation_Rate := r |})
                        (combine (cancelled_by_category fd) rates))).
    eapply Sorted_ind with (P := fun l =>
      Sorted (fun a b => (pm_Cancellation_Rate b <= pm_Cancellation_Rate a)%Q)
             l); [constructor | | exact Hs].
    intros a l _ IH Hhd. constructor; [exact IH|].
    destruct Hhd as [|b l Hab]; constructor.
    unfold by_rate_desc in Hab. now apply Qle_bool_iff.
  - rewrite Forall_forall in *. intros m Hm. rewrite (Hrates m Hm).
    unfold round1.
    assert (H0 : (0 <= Qof_nat (pm_Cancelled m) / total * 100)%Q).
    { pose proof (Qof_nat_nonneg (pm_Cancelled m)) as Hc.
      assert (0 <= Qof_nat (pm_Cancelled m) / total)%Q
        by (apply Qle_shift_div_l; [exact Hpos | lra]).
      lra. }
    set (x := (Qof_nat (pm_Cancelled m) / total * 100)%Q) in *.
    assert (Hr : (0 <= rint (x * 10))%Z).
    { unfold rint.
      assert (0 <= Qfloor (x * 10))%Z.
      { rewrite <- (Qfloor_Z 0). apply Qfloor_resp_le.
        change (inject_Z 0) with 0%Q. lra. }
      destruct (Qcompare _ _); [destruct (Z.even _)| |]; lia. }
    apply Qle_shift_div_l; [reflexivity|].
    rewrite Zle_Qle in Hr. change (inject_Z 0) with 0%Q in Hr. lra.
Qed.

Lemma proc_metrics_sorted_witness :
  exists pm,
    proc_metrics Sample.records 100 = inr pm /\
    Sorted (fun a b => (pm_Cancellation_Rate b <= pm_Cancellation_Rate a)%Q)
           pm.
Proof.
  destruct (proc_metrics Sample.records 100) as [e|pm] eqn:H.
  - exfalso. vm_compute in H. discriminate.
  - exists pm. split; [reflexivity|].
    exact (proj1 (proc_metrics_sorted Sample.records 100 pm H)).
Defined.

(* ================================================================== *)
(** ** The OTHER breakdown, further *)

Lemma filter_all {A} (l : list A) : filter (fun _ => true) l = l.
Proof. induction l as [|x l IH]; simpl; [reflexivity | now rewrite IH]. Qed.

Lemma count_cancelled_le rs : (count_cancelled rs <= List.length rs)%nat.
Proof. unfold count_cancelled. apply filter_length_le. Qed.

Lemma group_nonempty {A} (key : A -> string) k rs :
  In k (groupby_keys (map key rs)) -> (0 < List.length (group key k rs))%nat.
Proof.
  intro Hk. apply groupby_keys_In, in_map_iff in Hk.
  destruct Hk as [r [Hr Hin]].
  assert (In r (group key k rs)) as Hg
    by (apply filter_In; split; [exact Hin | now apply String.eqb_eq]).
  destruct (group key k rs); [contradiction | simpl; lia].
Qed.

(** X16: every row of the OTHER breakdown stands for a type that occurs
    among the records given; its cancelled count is the number of
    cancelled records of that type, its total is at most the number of
    records of that type and at least the cancelled count; and when the
    total is not 0 the rate lies between 0 and 100. *)
Theorem other_types_rows_valid :
  forall other_procedures : list Row,
    Forall (fun r =>
              let g := group Type_ (ot_Procedure_Type r) other_procedures in
              (exists x, In x other_procedures /\
                         Type_ x = ot_Procedure_Type r) /\
              ot_Cancelled r = count_cancelled g /\
              (ot_Total r <= List.length g)%nat /\
              (ot_Cancelled r <= ot_Total r)%nat /\
              ((1 <= ot_Total r)%nat ->
               (0 <= ot_Cancellation_Rate r)%Q /\
               (ot_Cancellation_Rate r <= 100)%Q))
           (other_types other_procedures).
Proof.
  intro op. apply Forall_forall. intros r Hr.
  unfold other_types in Hr. apply sort_by_In, in_map_iff in Hr.
  destruct Hr as [k [<- Hk]]. cbn.
  pose proof (group_nonempty Type_ k op Hk) as Hpos.
  pose proof (count_cancelled_le (group Type_ k op)) as Hle.
  split.
  - apply groupby_keys_In, in_map_iff in Hk.
    destruct Hk as [x [Hx Hin]]. now exists x.
  - split; [reflexivity|]. split; [lia|]. split; [exact Hle|].
    intros _. now apply local_rate_bounds.
Qed.


(** ** The median *)

Lemma median_between (xs : list Q) (m : Q) :
  median xs = Some m ->
  (exists x, In x xs /\ (x <= m)%Q) /\ (exists y, In y xs /\ (m <= y)%Q).
Proof.
  unfold median. set (s := sort_by Qle_bool xs).
  assert (Hin : forall i, (i < List.length s)%nat -> In (nth i s 0%Q) xs)
    by (intros i Hi; apply (sort_by_In Qle_bool xs), nth_In, Hi).
  destruct (List.length s) as [|n] eqn:Hn; [discriminate|].
  set (k := (S n / 2)%nat).
  assert (Hk : (k < S n)%nat) by (apply Nat.div_lt; lia).
  destruct (Nat.odd (S n)).
  - intro H. inversion H; subst m. split; exists (nth k s 0%Q);
      (split; [apply Hin, Hk | apply Qle_refl]).
  - intro H. inversion H; subst m.
    assert (Hk' : (k - 1 < S n)%nat) by lia.
    set (a := nth (k - 1) s 0%Q). set (b := nth k s 0%Q).
    assert (Ha : In a xs) by (apply Hin, Hk').
    assert (Hb : In b xs) by (apply Hin, Hk).
    destruct (Qlt_le_dec a b) as [Hab|Hba].
    + split; [exists a | exists b]; (split; [assumption|]).
      * apply Qle_shift_div_l; [reflexivity | lra].
      * apply Qle_shift_div_r; [reflexivity | lra].
    + split; [exists b | exists a]; (split; [assumption|]).
      * apply Qle_shift_div_l; [reflexivity | lra].
      * apply Qle_shift_div_r; [reflexivity | lra].
Qed.

(** X18: every row of [high_cancel] has a rate strictly above that of
    some row of the breakdown; so when all rows of the breakdown have the
    same rate (a single row, for one) [high_cancel] is empty. *)
Theorem high_cancel_above_some_row :
  forall (other_types : list OtherType),
    (forall r, In r (high_cancel other_types) ->
       exists r', In r' other_types /\
                  (ot_Cancellation_Rate r' < ot_Cancellation_Rate r)%Q) /\
    ((forall a b, In a other_types -> In b other_types ->
                  (ot_Cancellation_Rate a == ot_Cancellation_Rate b)%Q) ->
     high_cancel other_types = []).
Proof.
  intro ot.
  assert (H1 : forall r, In r (high_cancel ot) ->
       exists r', In r' ot /\
                  (ot_Cancellation_Rate r' < ot_Cancellation_Rate r)%Q).
  { intros r Hr. unfold high_cancel in Hr.
    apply sort_by_In, filter_In in Hr. destruct Hr as [_ Hm].
    unfold high_cancel_mask in Hm. apply andb_true_iff in Hm.
    destruct Hm as [_ Hm].
    destruct (median (map ot_Cancellation_Rate ot)) as [m|] eqn:E;
      [|discriminate].
    simpl in Hm. apply Qltb_lt in Hm.
    destruct (median_between _ _ E) as [[x [Hx Hle]] _].
    apply in_map_iff in Hx. destruct Hx as [r' [<- Hr']].
    exists r'. split; [exact Hr'|]. lra. }
  split; [exact H1|].
  intro Hsame. destruct (high_cancel ot) as [|r l] eqn:E; [reflexivity|].
  exfalso.
  destruct (H1 r (or_introl eq_refl)) as [r' [Hr' Hlt]].
  assert (Hr : In r (high_cancel ot)) by (rewrite E; now left).
  assert (In r ot) as Hin.
  { unfold high_cancel in Hr. apply sort_by_In, filter_In in Hr. tauto. }
  pose proof (Hsame r' r Hr' Hin) as Heq. lra.
Qed.

(* ================================================================== *)
(** ** Tab 2, further *)

(** X19: in the per-category table of one employee the cancelled counts
    add up to the employee's cancelled records, the totals to at most the
    employee's records, no row has more cancellations than its total, and
    a row whose total is not 0 has a local rate between 0 and 100. *)
Theorem cancel_by_type_local :
  forall employee_data : list Row,
    list_sum (map cr_Cancelled (cancel_by_type employee_data))
    = count_cancelled employee_data /\
    (list_sum (map cr_Total (cancel_by_type employee_data))
     <= List.length employee_data)%nat /\
    Forall (fun r => (cr_Cancelled r <= cr_Total r)%nat /\
                     ((1 <= cr_Total r)%nat ->
                      (0 <= cr_Cancellation_Rate r)%Q /\
                      (cr_Cancellation_Rate r <= 100)%Q))
           (cancel_by_type employee_data).
Proof.
  intro ed. unfold cancel_by_type. split; [|split].
  - rewrite map_map. cbn [cr_Cancelled]. unfold count_cancelled.
    apply groupby_sum.
    + apply groupby_keys_NoDup.
    + intros r Hr. apply groupby_keys_In, in_map, Hr.
  - rewrite map_map. cbn [cr_Total]. apply Nat.eq_le_incl.
    rewrite <- (filter_all ed) at 2.
    rewrite <- (groupby_sum Procedure_Category (fun _ => true) ed
                  (groupby_keys (map Procedure_Category ed))).
    + f_equal. apply map_ext. intro k. now rewrite filter_all.
    + apply groupby_keys_NoDup.
    + intros r Hr. apply groupby_keys_In, in_map, Hr.
  - apply Forall_forall. intros r Hr. apply in_map_iff in Hr.
    destruct Hr as [k [<- Hk]]. cbn.
    pose proof (group_nonempty Procedure_Category k ed Hk) as Hpos.
    pose proof (count_cancelled_le (group Procedure_Category k ed)) as Hle.
    split; [exact Hle|]. intros _. now apply local_rate_bounds.
Qed.

(** *** The heatmap *)

Lemma employee_procedures_In fd e c n :
  In ((e, c), n) (employee_procedures fd) <->
  In e (groupby_keys (map Created_By fd)) /\
  In c (groupby_keys (map Procedure_Category (group Created_By e fd))) /\
  n = pair_count fd e c.
Proof.
  unfold employee_procedures. rewrite in_flat_map. split.
  - intros [e' [He' Hin]]. apply in_map_iff in Hin.
    destruct Hin as [c' [Heq Hc']]. inversion Heq; subst. auto.
  - intros [He [Hc ->]]. exists e. split; [exact He|].
    apply in_map_iff. now exists c.
Qed.

(** The pivot with [fillna(0)] holds, for every pair, the number of
    records of that employee and category. *)
Lemma pivot_value fd e c :
  match pivot_lookup (employee_procedures fd) e c with
  | Some n => n
  | None => 0%nat
  end = pair_count fd e c.
Proof.
  unfold pivot_lookup.
  destruct (find _ (employee_procedures fd)) as [[[e' c'] n]|] eqn:E.
  - apply find_some in E. destruct E as [Hin Hk]. cbn in Hk.
    apply andb_true_iff in Hk. destruct Hk as [He Hc].
    apply String.eqb_eq in He, Hc. subst e' c'.
    apply employee_procedures_In in Hin. cbn. tauto.
  - destruct (pair_count fd e c) as [|n] eqn:Hn; [reflexivity|]. exfalso.
    assert (Hc : In c (groupby_keys (map Procedure_Category
                                         (group Created_By e fd)))).
    { unfold pair_count in Hn.
      destruct (group Procedure_Category c (group Created_By e fd))
        as [|r l] eqn:Hg; [discriminate|].
      assert (In r (group Procedure_Category c (group Created_By e fd)))
        as Hr by (rewrite Hg; now left).
      apply filter_In in Hr. destruct Hr as [Hr Hk].
      apply String.eqb_eq in Hk.
      apply groupby_keys_In, in_map_iff. now exists r. }
    assert (He : In e (groupby_keys (map Created_By fd))).
    { apply groupby_keys_In, in_map_iff in Hc. destruct Hc as [r [_ Hr]].
      apply filter_In in Hr. destruct Hr as [Hr Hk].
      apply String.eqb_eq in Hk.
      apply groupby_keys_In, in_map_iff. now exists r. }
    assert (Hin : In ((e, c), S n) (employee_procedures fd))
      by (apply employee_procedures_In; auto).
    pose proof (find_none _ _ E _ Hin) as Hf. cbn in Hf.
    rewrite !String.eqb_refl in Hf. discriminate.
Qed.

Lemma Qof_nat_plus n m : (Qof_nat (n + m) == Qof_nat n + Qof_nat m)%Q.
Proof.
  unfold Qof_nat. rewrite Nat2Z.inj_add, inject_Z_plus. reflexivity.
Qed.

Lemma Qsum_Qof_nat (l : list nat) :
  (Qsum (map Qof_nat l) == Qof_nat (list_sum l))%Q.
Proof.
  induction l as [|n l IH]; simpl; [reflexivity|].
  now rewrite Qof_nat_plus, IH.
Qed.

Lemma heatmap_index fd :
  forall e, In e (pv_index (heatmap_data fd)) ->
            In e (groupby_keys (map Created_By fd)).
Proof.
  intros e He. unfold heatmap_data in He. cbn in He.
  apply groupby_keys_In, in_map_iff in He.
  destruct He as [[[e' c] n] [<- Hin]]. cbn.
  apply employee_procedures_In in Hin. tauto.
Qed.

Lemma heatmap_columns fd r :
  In r fd -> In (Procedure_Category r) (pv_columns (heatmap_data fd)).
Proof.
  intro Hr. unfold heatmap_data. cbn.
  apply groupby_keys_In, in_map_iff.
  exists ((Created_By r, Procedure_Category r),
          pair_count fd (Created_By r) (Procedure_Category r)).
  split; [reflexivity|]. apply employee_procedures_In.
  assert (In r (group Created_By (Created_By r) fd)) as Hg
    by (apply filter_In; split; [exact Hr | apply String.eqb_refl]).
  repeat split.
  - apply groupby_keys_In, in_map, Hr.
  - apply groupby_keys_In, in_map, Hg.
Qed.

(** Each row of the pivot adds up to the number of records of its
    employee, which is at least one. *)
Lemma heatmap_row_sum fd row :
  In row (pv_values (heatmap_data fd)) ->
  exists e, In e (groupby_keys (map Created_By fd)) /\
            (Qsum row == Qof_nat (List.length (group Created_By e fd)))%Q /\
            (0 < List.length (group Created_By e fd))%nat.
Proof.
  intro Hrow. unfold heatmap_data in Hrow. cbn [pv_values] in Hrow.
  apply in_map_iff in Hrow. destruct Hrow as [e [<- He]].
  fold (pv_index (heatmap_data fd)) in He.
  apply heatmap_index in He. exists e. split; [exact He|].
  split; [|now apply group_nonempty].
  set (cols := groupby_keys
                 (map (fun x => snd (fst x)) (employee_procedures fd))).
  rewrite (map_ext _ (fun c => Qof_nat (pair_count fd e c))).
  - rewrite <- (map_map (pair_count fd e) Qof_nat), Qsum_Qof_nat.
    assert (Hn : list_sum (map (pair_count fd e) cols)
                 = List.length (group Created_By e fd)).
    { rewrite <- (filter_all (group Created_By e fd)) at 1.
      rewrite <- (groupby_sum Procedure_Category (fun _ => true)
                    (group Created_By e fd) cols).
      - f_equal. apply map_ext. intro k. unfold pair_count.
        now rewrite filter_all.
      - apply groupby_keys_NoDup.
      - intros r Hr. apply filter_In in Hr. destruct Hr as [Hr _].
        exact (heatmap_columns fd r Hr). }
    now rewrite Hn.
  - intro c. rewrite <- (pivot_value fd e c).
    destruct (pivot_lookup _ e c); reflexivity.
Qed.

(** X20: every row label of the heatmap is the employee of some record
    of the working set and every column label the category of some
    record; each row of counts has one cell per column and a sum that is
    not 0, so no share is a division by zero; and every cell of the
    percentage table lies between 0 and 100. *)
Theorem heatmap_pct_rows :
  forall filtered_data : list Row,
    let d := heatmap_data filtered_data in
    let h := heatmap_pct d in
    List.length (pv_values h) = List.length (pv_index h) /\
    (forall e, In e (pv_index h) ->
               exists r, In r filtered_data /\ Created_By r = e) /\
    (forall c, In c (pv_columns h) ->
               exists r, In r filtered_data /\ Procedure_Category r = c) /\
    Forall (fun row => List.length row = List.length (pv_columns d) /\
                       (0 < Qsum row)%Q)
           (pv_values d) /\
    Forall (fun row => List.length row = List.length (pv_columns h) /\
                       Forall (fun v => (0 <= v)%Q /\ (v <= 100)%Q) row)
           (pv_values h).
Proof.
  intros fd d h. unfold h, d, heatmap_pct.
  cbn [pv_values pv_index pv_columns].
  assert (Hcells : forall row, In row (pv_values (heatmap_data fd)) ->
            List.length row = List.length (pv_columns (heatmap_data fd)) /\
            forall v, In v row -> (0 <= v)%Q).
  { intros row Hrow. unfold heatmap_data in Hrow. cbn [pv_values] in Hrow.
    apply in_map_iff in Hrow. destruct Hrow as [e' [<- _]]. split.
    - unfold heatmap_data. cbn. now rewrite length_map.
    - intros v Hv. apply in_map_iff in Hv. destruct Hv as [c [<- _]].
      destruct (pivot_lookup _ e' c);
        [apply Qof_nat_nonneg | apply Qle_refl]. }
  assert (Hpos : forall row, In row (pv_values (heatmap_data fd)) ->
            (0 < Qsum row)%Q).
  { intros row Hrow.
    destruct (heatmap_row_sum fd row Hrow) as [e [_ [Hsum Hn]]].
    rewrite Hsum. now apply Qof_nat_pos. }
  split; [|split; [|split; [|split]]].
  - unfold heatmap_data. cbn. now rewrite !length_map.
  - intros e He. apply heatmap_index, groupby_keys_In, in_map_iff in He.
    destruct He as [r [Hr Hin]]. now exists r.
  - intros c Hc. unfold heatmap_data in Hc. cbn in Hc.
    apply groupby_keys_In, in_map_iff in Hc.
    destruct Hc as [[[e c'] n] [<- Hin]]. cbn.
    apply employee_procedures_In in Hin. destruct Hin as [_ [Hc _]].
    apply groupby_keys_In, in_map_iff in Hc. destruct Hc as [r [Hr Hin]].
    apply filter_In in Hin. exists r. tauto.
  - apply Forall_forall. intros row Hrow. split.
    + apply (Hcells row Hrow).
    + now apply Hpos.
  - apply Forall_forall. intros row' Hrow'. apply in_map_iff in Hrow'.
    destruct Hrow' as [row [<- Hrow]].
    destruct (Hcells row Hrow) as [Hlen Hnn].
    pose proof (Hpos row Hrow) as HS.
    assert (Hle : forall v, In v row -> (v <= Qsum row)%Q).
    { clear - Hnn. induction row as [|x row IH]; intros v Hv;
        [contradiction|].
      simpl.
      assert (0 <= Qsum row)%Q.
      { clear - Hnn. induction row as [|y row IH]; simpl;
          [apply Qle_refl|].
        assert (0 <= y)%Q by (apply Hnn; right; now left).
        assert (0 <= Qsum row)%Q
          by (apply IH; intros v [Hv|Hv]; apply Hnn;
              [now left | right; now right]).
        lra. }
      assert (0 <= x)%Q by (apply Hnn; now left).
      destruct Hv as [<-|Hv]; [lra|].
      assert (v <= Qsum row)%Q
        by (apply IH; [intros w Hw; apply Hnn; now right | exact Hv]).
      lra. }
    split.
    + now rewrite length_map.
    + apply Forall_forall. intros v' Hv'. apply in_map_iff in Hv'.
      destruct Hv' as [v [<- Hv]].
      pose proof (Hnn v Hv) as H0. pose proof (Hle v Hv) as H1.
      assert (0 <= v / Qsum row)%Q
        by (apply Qle_shift_div_l; [exact HS | lra]).
      assert (v / Qsum row <= 1)%Q
        by (apply Qle_shift_div_r; [exact HS | lra]).
      split; lra.
Qed.

(* ================================================================== *)
(** ** Tab 3, further *)

(** X21: an elapsed time gets no bucket exactly when it is zero or
    negative; any other gets one of the five labels. *)
Theorem time_category_none_iff :
  forall h : Q,
    (time_category h = None <-> (h <= 0)%Q) /\
    (forall l, time_category h = Some l -> In l labels).
Proof.
  intro h.
  unfold time_category, bins, labels, cut, edge_lt, le_edge, Qltb.
  repeat match goal with
         | |- context [Qle_bool ?a ?b] => destruct (Qle_bool a b) eqn:?
         end;
    cbn [negb andb]; Qle_bool_to_prop;
    (split; [split; intro H; first [discriminate | reflexivity | lra
                                   | exfalso; lra]
            | intros l H; inversion H; simpl; tauto]).
Qed.

Lemma fold_left_Qmax (l : list Q) : forall a,
  let m := fold_left Qmax l a in
  (a <= m)%Q /\ (forall y, In y l -> (y <= m)%Q) /\ (m = a \/ In m l).
Proof.
  induction l as [|x l IH]; intro a; simpl.
  - split; [apply Qle_refl|]. split; [intros y []|now left].
  - destruct (IH (Qmax a x)) as [H1 [H2 H3]].
    assert (Ha : (a <= Qmax a x)%Q /\ (x <= Qmax a x)%Q /\
                 (Qmax a x = a \/ Qmax a x = x)).
    { unfold Qmax. destruct (Qle_bool a x) eqn:E.
      - apply Qle_bool_iff in E. repeat split; auto; apply Qle_refl.
      - assert (x <= a)%Q.
        { destruct (Qlt_le_dec a x) as [Hlt|Hle]; [|exact Hle].
          apply Qlt_le_weak, Qle_bool_iff in Hlt. congruence. }
        repeat split; auto; apply Qle_refl. }
    destruct Ha as [Ha [Hx Hor]].
    split; [eapply Qle_trans; eauto|]. split.
    + intros y [<-|Hy]; [eapply Qle_trans; eauto | now apply H2].
    + destruct H3 as [H3|H3]; [|right; now right].
      rewrite H3. destruct Hor as [->| ->]; [now left | right; now left].
Qed.

(** X22: for a non-empty list of elapsed times the median and the
    maximum are defined, the maximum is one of the times and bounds them
    all, and the median lies between one of the times and the maximum. *)
Theorem timing_statistics :
  forall hours : list Q,
    hours <> [] ->
    exists md mx,
      median hours = Some md /\ maximum hours = Some mx /\
      In mx hours /\ (forall x, In x hours -> (x <= mx)%Q) /\
      (exists x, In x hours /\ (x <= md)%Q) /\ (md <= mx)%Q.
Proof.
  intros hours Hne. destruct hours as [|x xs]; [congruence|].
  destruct (fold_left_Qmax xs x) as [H1 [H2 H3]].
  set (mx := fold_left Qmax xs x) in *.
  assert (Hall : forall y, In y (x :: xs) -> (y <= mx)%Q)
    by (intros y [<-|Hy]; auto).
  destruct (median (x :: xs)) as [md|] eqn:Emd.
  2: { unfold median in Emd. cbv zeta in Emd.
       rewrite sort_by_length in Emd. cbn [List.length] in Emd.
       destruct (Nat.odd _) in Emd; discriminate. }
  destruct (median_between _ _ Emd) as [Hlow [y [Hy Hle]]].
  exists md, mx. repeat split; auto.
  - destruct H3 as [->|H3]; [now left | now right].
  - eapply Qle_trans; [exact Hle | now apply Hall].
Qed.

Lemma timing_statistics_witness :
  [5 # 60; 2; 0]%Q <> [] /\
  exists md mx,
    median [5 # 60; 2; 0]%Q = Some md /\
    maximum [5 # 60; 2; 0]%Q = Some mx /\
    In mx [5 # 60; 2; 0]%Q /\
    (forall x, In x [5 # 60; 2; 0]%Q -> (x <= mx)%Q) /\
    (exists x, In x [5 # 60; 2; 0]%Q /\ (x <= md)%Q) /\ (md <= mx)%Q.
Proof.
  split; [discriminate|].
  apply (timing_statistics [5 # 60; 2; 0]%Q). discriminate.
Defined.

(* ================================================================== *)
(** ** Tab 4 and the employee volume *)

Lemma Sorted_leb_le {A} (f : A -> nat) (l : list A) :
  Sorted (fun a b => (f a <=? f b)%nat = true) l ->
  StronglySorted (fun a b => (f a <= f b)%nat) l.
Proof.
  intro H. apply Sorted_StronglySorted.
  - intros a b c Hab Hbc. lia.
  - induction H as [|a l _ IH Hhd]; constructor; [exact IH|].
    destruct Hhd as [|b l Hab]; constructor. now apply Nat.leb_le.
Qed.

Lemma StronglySorted_split {A} (R : A -> A -> Prop) (l : list A) :
  StronglySorted R l ->
  forall n a b, In a (firstn n l) -> In b (skipn n l) -> R a b.
Proof.
  induction 1 as [|x l Hs IH Hall]; intros n a b Ha Hb.
  - destruct n; contradiction.
  - destruct n as [|n]; [contradiction|]. simpl in Ha, Hb.
    destruct Ha as [<-|Ha].
    + rewrite Forall_forall in Hall. apply Hall.
      rewrite <- (firstn_skipn n l). apply in_or_app. now right.
    + eapply IH; eauto.
Qed.

(** X23: the cancellation counts of [cancel_metrics] add up to no more
    than the number of cancelled records of the working set; each
    employee listed has at least one cancellation, over at least one and
    at most that many distinct categories; and the rows are in ascending
    order of cancellations. *)
Theorem cancel_metrics_accounts :
  forall filtered_data : list Row,
    (list_sum (map cm_Cancellations (cancel_metrics filtered_data))
     <= count_cancelled filtered_data)%nat /\
    Forall (fun m => (1 <= cm_Unique_Procedures m)%nat /\
                     (cm_Unique_Procedures m <= cm_Cancellations m)%nat)
           (cancel_metrics filtered_data) /\
    StronglySorted (fun a b => (cm_Cancellations a <= cm_Cancellations b)%nat)
                   (cancel_metrics filtered_data).
Proof.
  intro fd. unfold cancel_metrics.
  set (cancelled := filter is_cancelled fd).
  split; [|split].
  - apply Nat.eq_le_incl.
    rewrite (Permutation_list_sum
               (Permutation_map cm_Cancellations (sort_by_perm _ _))).
    rewrite map_map. cbn [cm_Cancellations].
    unfold count_cancelled. fold cancelled.
    rewrite <- (filter_all cancelled) at 2.
    rewrite <- (groupby_sum Canceled_By (fun _ => true) cancelled
                  (groupby_keys (map Canceled_By cancelled))).
    + f_equal. apply map_ext. intro k. now rewrite filter_all.
    + apply groupby_keys_NoDup.
    + intros r Hr. apply groupby_keys_In, in_map, Hr.
  - apply Forall_forall. intros m Hm. apply sort_by_In, in_map_iff in Hm.
    destruct Hm as [k [<- Hk]]. cbn.
    pose proof (group_nonempty Canceled_By k cancelled Hk) as Hpos.
    set (g := group Canceled_By k cancelled) in *.
    split.
    + destruct g as [|r g']; [simpl in Hpos; lia|].
      assert (In (Procedure_Category r)
                 (nodup string_dec (map Procedure_Category (r :: g'))))
        as Hin by (apply nodup_In; now left).
      destruct (nodup string_dec (map Procedure_Category (r :: g')));
        [contradiction | simpl; lia].
    + rewrite <- (length_map Procedure_Category g).
      apply NoDup_incl_length; [apply NoDup_nodup|].
      intros c Hc. now apply nodup_In in Hc.
  - apply (Sorted_leb_le cm_Cancellations).
    apply sort_by_sorted. intros a b. apply Nat_leb_total.
Qed.

(** X24: every employee of the volume table has at least one record,
    the volumes add up to no more than the size of the working set, and
    the ten rows charted (the tail of the table) are those with the most
    records: no row left out has more than a row kept. *)
Theorem employee_total_top_ten :
  forall filtered_data : list Row,
    Forall (fun x => (1 <= snd x)%nat) (employee_total filtered_data) /\
    (list_sum (map snd (employee_total filtered_data))
     <= List.length filtered_data)%nat /\
    forall a b,
      In b (tail 10 (employee_total filtered_data)) ->
      In a (employee_total filtered_data) ->
      ~ In a (tail 10 (employee_total filtered_data)) ->
      (snd a <= snd b)%nat.
Proof.
  intro fd. split; [|split].
  - apply Forall_forall. intros x Hx. unfold employee_total in Hx.
    apply sort_by_In, in_map_iff in Hx. destruct Hx as [k [<- Hk]]. cbn.
    pose proof (group_nonempty Created_By k fd Hk). lia.
  - apply Nat.eq_le_incl. unfold employee_total.
    rewrite (Permutation_list_sum (Permutation_map snd (sort_by_perm _ _))).
    rewrite map_map. cbn [snd].
    rewrite <- (filter_all fd) at 2.
    rewrite <- (groupby_sum Created_By (fun _ => true) fd
                  (groupby_keys (map Created_By fd))).
    + f_equal. apply map_ext. intro k. now rewrite filter_all.
    + apply groupby_keys_NoDup.
    + intros r Hr. apply groupby_keys_In, in_map, Hr.
  - intros a b Hb Ha Hna. unfold tail in *.
    set (l := employee_total fd) in *.
    set (n := (List.length l - 10)%nat) in *.
    assert (Hs : StronglySorted (fun a b => (snd a <= snd b)%nat) l).
    { unfold l, employee_total.
      apply (Sorted_leb_le (@snd string nat)).
      apply sort_by_sorted. intros x y. apply Nat_leb_total. }
    apply (StronglySorted_split _ l Hs n a b); [|exact Hb].
    rewrite <- (firstn_skipn n l) in Ha. apply in_app_or in Ha.
    destruct Ha as [Ha|Ha]; [exact Ha | contradiction].
Qed.
